(** * Saving and loading fully-connected networks

    A shallow embedding of the checkpoint cells of the notebook
    "Saving and Loading Models": the cell that builds the [checkpoint]
    dictionary and hands it to [torch.save], and the function
    [load_checkpoint] that reads it back, rebuilds the network with
    [fc_model.Network] and restores the parameters with
    [load_state_dict].  The framework calls the notebook makes
    ([state_dict], [load_state_dict], [torch.save], [torch.load]) are
    modelled at the level the notebook's own printed outputs show. *)

From Stdlib Require Import ZArith QArith Ascii String.
From stdpp Require Import base option list strings pretty gmap.

(** ** Tensors and layers *)

(** A dense tensor: its shape ([torch.Size]) and its elements in row-major
    order, each element given as the bit pattern of a 32-bit float. *)
Record Tensor := mkTensor { shape : list nat; data : list Z }.

Definition numel (s : list nat) : nat := foldr Nat.mul 1 s.

(** A freshly initialised tensor of the given shape.  The random draws are
    read off the stream [g] from position [pos] on. *)
Definition fresh (g : nat → Z) (pos : nat) (s : list nat) : Tensor :=
  {| shape := s; data := g <$> seq pos (numel s) |}.

(** [nn.Linear]: the printed error of cell 10 shows the weight of
    [Linear(in_features=784, out_features=512)] with shape [512, 784] and
    its bias with shape [512]. *)
Record Linear := mkLinear {
  in_features : nat;
  out_features : nat;
  weight : Tensor;
  bias : Tensor
}.

(** The number of random draws a linear layer takes. *)
Definition Linear_draws (n_in n_out : nat) : nat := n_out * n_in + n_out.

Definition nn_Linear (g : nat → Z) (pos : nat) (n_in n_out : nat) : Linear :=
  {| in_features := n_in;
     out_features := n_out;
     weight := fresh g pos [n_out; n_in];
     bias := fresh g (pos + n_out * n_in) [n_out] |}.

(** The live model, as cell 6 prints it: a [ModuleList] of hidden [Linear]
    layers, an output [Linear] layer and a [Dropout] module. *)
Record Model := mkModel {
  hidden_layers : list Linear;
  output : Linear;
  dropout : Q
}.

(** ** The model descriptor of the specification *)

(** Modelled from the spec: the notebook has no descriptor type; this is the
    Model Descriptor of the specification's data model, with input width,
    output width, hidden widths in forward order and dropout probability. *)
Record Descriptor := mkDescriptor {
  input_size : nat;
  output_size : nat;
  hidden_sizes : list nat;
  dropout_rate : Q
}.

(** Modelled from the spec: the ranges the data model gives the four
    fields (positive widths, dropout probability in [0,1)). *)
Definition valid_descriptor (D : Descriptor) : Prop :=
  0 < input_size D ∧ 0 < output_size D ∧
  Forall (λ h, 0 < h) (hidden_sizes D) ∧
  (0 <= dropout_rate D)%Q ∧ (dropout_rate D < 1)%Q.

(** ** The model factory *)

Module fc_model.

(** Modelled from the spec: [fc_model] is missing.  The hidden layers are
    chained in forward order: the first reads the input, every later one
    reads the layer before it, as the module tree printed by cell 6 shows. *)
Fixpoint chain (g : nat → Z) (pos : nat) (n_in : nat) (hs : list nat)
  : list Linear :=
  match hs with
  | [] => []
  | h :: hs' =>
      nn_Linear g pos n_in h :: chain g (pos + Linear_draws n_in h) h hs'
  end.

(** The number of random draws the chain takes. *)
Fixpoint chain_draws (n_in : nat) (hs : list nat) : nat :=
  match hs with
  | [] => 0
  | h :: hs' => Linear_draws n_in h + chain_draws h hs'
  end.

(** The default of the factory's dropout argument: the three-argument
    calls of the notebook print [Dropout(p=0.5)]. *)
Definition default_drop_p : Q := 1 # 2.

(** Modelled from the spec: the module [fc_model] that defines [Network]
    is missing.  The factory lays out one linear layer per hidden width in
    forward order, an output layer that reads the last hidden layer, and a
    dropout module with the given probability; parameters are freshly
    initialised.  With no hidden width the output layer reads the input. *)
Definition Network (g : nat → Z) (input_size output_size : nat)
    (hidden_layers : list nat) (drop_p : Q) : Model :=
  {| hidden_layers := chain g 0 input_size hidden_layers;
     output := nn_Linear g (chain_draws input_size hidden_layers)
                 (List.last hidden_layers input_size) output_size;
     dropout := drop_p |}.

End fc_model.

(** Modelled from the spec: the Model Factory [build(descriptor)] of the
    specification, as the call of [fc_model.Network] on the four fields. *)
Definition build (g : nat → Z) (D : Descriptor) : Model :=
  fc_model.Network g (input_size D) (output_size D) (hidden_sizes D)
    (dropout_rate D).

(** ** The parameter snapshot *)

(** An [OrderedDict] from parameter name to tensor: insertion order is kept,
    lookup finds the entry with the given key. *)
Definition StateDict := list (string * Tensor).

Definition sd_keys (sd : StateDict) : list string := sd.*1.

Fixpoint sd_lookup (key : string) (sd : StateDict) : option Tensor :=
  match sd with
  | [] => None
  | (k, t) :: sd' => if decide (k = key) then Some t else sd_lookup key sd'
  end.

(** The parameters of one linear layer under a name prefix. *)
Definition Linear_parameters (prefix : string) (l : Linear) : StateDict :=
  [(prefix +:+ "weight", weight l); (prefix +:+ "bias", bias l)].

(** The path to the [i]-th child of the module list [hidden_layers]. *)
Definition hidden_prefix (i : nat) : string :=
  "hidden_layers." +:+ pretty i +:+ ".".

Definition output_prefix : string := "output.".

(** [model.state_dict()]: the modules are visited in registration order
    ([hidden_layers], then [output]; [dropout] has no parameter), the
    children of the [ModuleList] by index, and each parameter is named by
    the path to it.  Cell 6 prints these keys. *)
Fixpoint hidden_parameters (i : nat) (ls : list Linear) : StateDict :=
  match ls with
  | [] => []
  | l :: ls' =>
      Linear_parameters (hidden_prefix i) l ++ hidden_parameters (S i) ls'
  end.

Definition state_dict (model : Model) : StateDict :=
  hidden_parameters 0 (hidden_layers model)
  ++ Linear_parameters output_prefix (output model).

(** ** Restoring a snapshot into a live model *)

(** What [load_state_dict] does with one parameter of the model. *)
Inductive outcome :=
  | Copied (key : string)
  | Mismatch (key : string) (checkpoint_shape model_shape : list nat)
  | Missing (key : string).

(** The lines of the [RuntimeError] that [load_state_dict] raises. *)
Inductive load_msg :=
  | MissingKeys (keys : list string)
  | UnexpectedKeys (keys : list string)
  | SizeMismatch (key : string) (checkpoint_shape model_shape : list nat).

(** [param.copy_(input_param)]: the parameter keeps its storage and shape
    and takes the elements of the input. *)
Definition copy_ (param input_param : Tensor) : Tensor :=
  {| shape := shape param; data := data input_param |}.

(** One parameter: a key that is absent is recorded as missing, an input of
    another shape is recorded as a size mismatch and skipped, and an input
    of the same shape is copied into the parameter at once. *)
Definition load_param (sd : StateDict) (key : string) (param : Tensor)
  : Tensor * outcome :=
  match sd_lookup key sd with
  | Some input_param =>
      if decide (shape input_param = shape param)
      then (copy_ param input_param, Copied key)
      else (param, Mismatch key (shape input_param) (shape param))
  | None => (param, Missing key)
  end.

Definition load_Linear (sd : StateDict) (prefix : string) (l : Linear)
  : Linear * list outcome :=
  let '(w, ow) := load_param sd (prefix +:+ "weight") (weight l) in
  let '(b, ob) := load_param sd (prefix +:+ "bias") (bias l) in
  ({| in_features := in_features l; out_features := out_features l;
      weight := w; bias := b |}, [ow; ob]).

Fixpoint load_hidden (sd : StateDict) (i : nat) (ls : list Linear)
  : list Linear * list outcome :=
  match ls with
  | [] => ([], [])
  | l :: ls' =>
      let '(l1, o1) := load_Linear sd (hidden_prefix i) l in
      let '(ls1, o2) := load_hidden sd (S i) ls' in
      (l1 :: ls1, o1 ++ o2)
  end.

Definition copied (os : list outcome) : list string :=
  omap (λ o, match o with Copied k => Some k | _ => None end) os.

Definition missing_keys (os : list outcome) : list string :=
  omap (λ o, match o with Missing k => Some k | _ => None end) os.

Definition size_mismatches (os : list outcome) : list load_msg :=
  omap (λ o, match o with
             | Mismatch k s1 s2 => Some (SizeMismatch k s1 s2)
             | _ => None
             end) os.

(** The keys of the snapshot that name no parameter of the model.  (The
    framework looks, module by module, at the first name after the module's
    path; on the snapshots that [state_dict] writes, whose keys are
    parameter names, this is the same list.) *)
Definition unexpected_keys (model : Model) (sd : StateDict) : list string :=
  filter (λ k, k ∉ sd_keys (state_dict model)) (sd_keys sd).

(** The messages in the order of the raised error: the missing keys are
    inserted at the front, before the unexpected keys, before the size
    mismatches in the order the parameters were visited. *)
Definition error_msgs (model : Model) (sd : StateDict) (os : list outcome)
  : list load_msg :=
  (if decide (missing_keys os = []) then [] else [MissingKeys (missing_keys os)])
  ++ (if decide (unexpected_keys model sd = []) then []
      else [UnexpectedKeys (unexpected_keys model sd)])
  ++ size_mismatches os.

(** ** Python values, errors and the call log *)

#[warnings="-register-all"] Inductive PyVal :=
  | PyNone
  | PyInt (n : Z)
  | PyFloat (q : Q)
  | PyIntList (l : list Z)
  | PyTensor (t : Tensor)
  | PyStateDict (sd : StateDict)
  | PyDict (d : gmap string PyVal).

Inductive error :=
  | FileNotFoundError (filepath : string)
  | UnpicklingError
  | KeyError (key : string)
  | TypeError
  | FactoryError
  | RuntimeError (msgs : list load_msg).

Inductive result (A : Type) :=
  | Ok (a : A)
  | Err (e : error).
Arguments Ok {A} a.
Arguments Err {A} e.

(** The calls that change or create a model, in the order they happen. *)
Inductive event :=
  | CallNetwork (input_size output_size hidden_layers : PyVal)
  | CopyParam (key : string).

(** A computation that may raise, with the log of the calls it made. *)
Definition exec (A : Type) : Type := list event * result A.

#[global] Instance exec_ret : MRet exec := λ A a, ([], Ok a).

#[global] Instance exec_bind : MBind exec := λ A B f m,
  match m with
  | (log, Ok a) => let '(log', r) := f a in (log ++ log', r)
  | (log, Err e) => (log, Err e)
  end.

Definition lift {A} (r : result A) : exec A := ([], r).

(** [obj[key]] *)
Definition getitem (obj : PyVal) (key : string) : result PyVal :=
  match obj with
  | PyDict d =>
      match d !! key with
      | Some v => Ok v
      | None => Err (KeyError key)
      end
  | PyStateDict sd =>
      match sd_lookup key sd with
      | Some t => Ok (PyTensor t)
      | None => Err (KeyError key)
      end
  | _ => Err TypeError
  end.

(** [model.load_state_dict(state_dict)] with the default [strict=True]:
    every parameter of the model is visited in order; the error, if any, is
    raised after the last one.  The model it returns is the model as the
    call left it, also when it raises. *)
Definition load_state_dict (model : Model) (sd : StateDict)
  : Model * exec unit :=
  let '(hl, o1) := load_hidden sd 0 (hidden_layers model) in
  let '(out, o2) := load_Linear sd output_prefix (output model) in
  let os := o1 ++ o2 in
  ({| hidden_layers := hl; output := out; dropout := dropout model |},
   (CopyParam <$> copied os,
    match error_msgs model sd os with
    | [] => Ok ()
    | msgs => Err (RuntimeError msgs)
    end)).

(** A width handed to the factory: a non-negative Python integer. *)
Definition as_size (v : PyVal) : option nat :=
  match v with
  | PyInt n => if decide (0 ≤ n)%Z then Some (Z.to_nat n) else None
  | _ => None
  end.

Definition as_sizes (v : PyVal) : option (list nat) :=
  match v with
  | PyIntList l => mapM (λ n, as_size (PyInt n)) l
  | _ => None
  end.

(** The call [fc_model.Network(input_size, output_size, hidden_layers)] on
    Python values, with the default dropout.  Arguments that are not widths
    make the factory raise. *)
Definition call_Network (g : nat → Z)
    (input_size output_size hidden_layers : PyVal) : exec Model :=
  ([CallNetwork input_size output_size hidden_layers],
   match as_size input_size, as_size output_size, as_sizes hidden_layers with
   | Some i, Some o, Some hs =>
       Ok (fc_model.Network g i o hs fc_model.default_drop_p)
   | _, _, _ => Err FactoryError
   end).

(** The method call [model.load_state_dict(obj)] inside a function: the
    model after the call is only passed on when the call returns. *)
Definition call_load_state_dict (model : Model) (obj : PyVal) : exec Model :=
  match obj with
  | PyStateDict sd =>
      let '(model', r) := load_state_dict model sd in
      _ ← r; mret model'
  | _ => lift (Err TypeError)
  end.

(** ** The checkpoint cell and [load_checkpoint] *)

(** Cell 11: the dictionary handed to [torch.save].  The two widths are the
    literals of the cell; the hidden widths are read off the live model. *)
Definition checkpoint (model : Model) : gmap string PyVal :=
  {[ "input_size" := PyInt 784;
     "output_size" := PyInt 10;
     "hidden_layers" :=
       PyIntList ((λ each, Z.of_nat (out_features each)) <$> hidden_layers model);
     "state_dict" := PyStateDict (state_dict model) ]}.

Section Codec.

(** [torch.save] and [torch.load] go through a pickle-based encoding that
    the notebook does not look into: an artifact type with the two
    directions of the encoding. *)
Context {artifact : Type}.
Variable encode : PyVal → artifact.
Variable decode : artifact → option PyVal.

(** [torch.save(obj, f)]; the files the notebook can see are a map [fs]
    from path to artifact. *)
Definition torch_save (obj : PyVal) (f : string) (fs : gmap string artifact)
  : gmap string artifact :=
  <[f := encode obj]> fs.

(** [torch.load(f)] *)
Definition torch_load (f : string) (fs : gmap string artifact) : result PyVal :=
  match fs !! f with
  | None => Err (FileNotFoundError f)
  | Some a =>
      match decode a with
      | Some obj => Ok obj
      | None => Err UnpicklingError
      end
  end.

(** Cell 11 on the model at hand. *)
Definition save_checkpoint (model : Model) (fs : gmap string artifact)
  : gmap string artifact :=
  torch_save (PyDict (checkpoint model)) "checkpoint.pth" fs.

(** Cell 12.  The arguments of the factory are evaluated left to right
    before it is called; the state dict is looked up after it returned. *)
Definition load_checkpoint (g : nat → Z) (fs : gmap string artifact)
    (filepath : string) : exec Model :=
  checkpoint ← lift (torch_load filepath fs);
  input_size ← lift (getitem checkpoint "input_size");
  output_size ← lift (getitem checkpoint "output_size");
  hidden_layers ← lift (getitem checkpoint "hidden_layers");
  model ← call_Network g input_size output_size hidden_layers;
  state_dict ← lift (getitem checkpoint "state_dict");
  call_load_state_dict model state_dict.

End Codec.

(** ** Auxiliary notions for the statements *)

(** The last character of a string, which tells the two parameter names of
    a layer apart. *)
Fixpoint last_char (s : string) : option Ascii.ascii :=
  match s with
  | EmptyString => None
  | String a EmptyString => Some a
  | String _ s' => last_char s'
  end.

(** The two parameter names of a linear layer. *)
Definition is_param_name (s : string) : Prop := s = "weight" ∨ s = "bias".

(** A layer of the model after the tensors of a snapshot layer were copied
    into it. *)
Definition restored (l l' : Linear) : Linear :=
  {| in_features := in_features l'; out_features := out_features l';
     weight := weight l; bias := bias l |}.

(** Two layers whose parameters have the same shapes. *)
Definition same_shape (l l' : Linear) : Prop :=
  shape (weight l) = shape (weight l') ∧ shape (bias l) = shape (bias l').

(** The widths of a model, layer by layer: what the descriptor determines
    apart from the dropout probability. *)
Definition architecture (m : Model) : list (nat * nat) * (nat * nat) :=
  ((λ l, (in_features l, out_features l)) <$> hidden_layers m,
   (in_features (output m), out_features (output m))).

(** The descriptor fields of a checkpoint dictionary agree with the widths
    of a descriptor. *)
Definition describes_widths (c : gmap string PyVal) (D : Descriptor) : Prop :=
  c !! "input_size" = Some (PyInt (Z.of_nat (input_size D))) ∧
  c !! "output_size" = Some (PyInt (Z.of_nat (output_size D))) ∧
  c !! "hidden_layers" = Some (PyIntList (Z.of_nat <$> hidden_sizes D)).

(** The dictionary holds the dropout probability under some key. *)
Definition records_dropout (c : gmap string PyVal) (p : Q) : Prop :=
  ∃ key q, c !! key = Some (PyFloat q) ∧ (q == p)%Q.

(** The dictionary describes all four fields of a descriptor. *)
Definition describes (c : gmap string PyVal) (D : Descriptor) : Prop :=
  describes_widths c D ∧ records_dropout c (dropout_rate D).

(** The per-key difference an error of [load_state_dict] reports: key, shape
    in the checkpoint, shape in the model. *)
Definition shape_diff (e : error) : list (string * list nat * list nat) :=
  match e with
  | RuntimeError msgs =>
      omap (λ m, match m with
                 | SizeMismatch k s1 s2 => Some (k, s1, s2)
                 | _ => None
                 end) msgs
  | _ => []
  end.

(** The parameter names of a network with [n] hidden layers, as cells 6 and
    8 print them. *)
Definition network_keys (n : nat) : list string :=
  (i ← seq 0 n;
   ["hidden_layers." +:+ pretty i +:+ ".weight";
    "hidden_layers." +:+ pretty i +:+ ".bias"])
  ++ ["output.weight"; "output.bias"].

(** A parameter of the loaded model was assigned from the snapshot: it has
    the name of the model's own parameter, it is the tensor the snapshot
    holds under that name, and that tensor has the parameter's shape. *)
Definition assigned_from (sd : StateDict) (param loaded : string * Tensor) : Prop :=
  loaded.1 = param.1 ∧
  sd_lookup param.1 sd = Some loaded.2 ∧
  shape loaded.2 = shape param.2.

(** Subscripting the object with the key raises [KeyError]: a mapping
    without that field. *)
Definition lacks (obj : PyVal) (key : string) : Prop :=
  getitem obj key = Err (KeyError key).

(** A call that returned a value. *)
Definition returns {A} (r : result A) : Prop :=
  match r with Ok _ => True | Err _ => False end.

(** ** The other cells of the notebook *)

(** Cell 7: [torch.save(model.state_dict(), 'checkpoint.pth')], the bare
    snapshot written to the same path that cell 11 writes later. *)
Definition save_state_dict {artifact : Type} (encode : PyVal → artifact)
    (model : Model) (fs : gmap string artifact) : gmap string artifact :=
  torch_save encode (PyStateDict (state_dict model)) "checkpoint.pth" fs.

(** What a parameter holds after [load_state_dict]: the tensor of the
    snapshot when the key is there with the parameter's shape, the old
    tensor otherwise. *)
Definition transfer (sd : StateDict) (key : string) (param : Tensor) : Tensor :=
  match sd_lookup key sd with
  | Some t => if decide (shape t = shape param) then t else param
  | None => param
  end.

(** What [load_state_dict] records for a parameter. *)
Definition param_outcome (sd : StateDict) (key : string) (param : Tensor)
  : outcome :=
  match sd_lookup key sd with
  | Some t =>
      if decide (shape t = shape param) then Copied key
      else Mismatch key (shape t) (shape param)
  | None => Missing key
  end.

(** The shapes of the parameters of a snapshot, in order. *)
Definition sd_shapes (sd : StateDict) : list (list nat) :=
  (λ kp, shape kp.2) <$> sd.

(** * Properties *)

(** ** Parameter names *)

Section Keys.

Lemma string_app_assoc (s1 s2 s3 : string) :
  (s1 +:+ s2) +:+ s3 = s1 +:+ s2 +:+ s3.
Proof.
  induction s1 as [|a s1 IH]; [done|].
  change (String a ((s1 +:+ s2) +:+ s3) = String a (s1 +:+ s2 +:+ s3)).
  by rewrite IH.
Qed.

Lemma string_app_length (s1 s2 : string) :
  String.length (s1 +:+ s2) = String.length s1 + String.length s2.
Proof.
  induction s1 as [|a s1 IH]; [done|].
  change (S (String.length (s1 +:+ s2)) = S (String.length s1 + String.length s2)).
  by rewrite IH.
Qed.

(** Cancelling a common suffix. *)
Lemma string_app_inj_r (t s1 s2 : string) :
  s1 +:+ t = s2 +:+ t → s1 = s2.
Proof.
  revert s2. induction s1 as [|a s1 IH]; intros [|b s2] H; [done| | |].
  - apply (f_equal String.length) in H.
    change (String b s2 +:+ t) with (String b (s2 +:+ t)) in H.
    change ("" +:+ t) with t in H.
    cbn [String.length] in H. rewrite string_app_length in H. lia.
  - apply (f_equal String.length) in H.
    change (String a s1 +:+ t) with (String a (s1 +:+ t)) in H.
    change ("" +:+ t) with t in H.
    cbn [String.length] in H. rewrite string_app_length in H. lia.
  - change (String a (s1 +:+ t) = String b (s2 +:+ t)) in H.
    injection H as -> H. f_equal. by apply IH.
Qed.

Lemma last_char_app (s : string) (a : Ascii.ascii) (t : string) :
  last_char (s +:+ String a t) = last_char (String a t).
Proof.
  induction s as [|b s IH]; [done|].
  change (String b s +:+ String a t) with (String b (s +:+ String a t)).
  rewrite <-IH. cbn [last_char].
  destruct (s +:+ String a t) eqn:E; [|done].
  apply (f_equal String.length) in E. rewrite string_app_length in E.
  cbn [String.length] in E. lia.
Qed.

Lemma hidden_key_inj (i j : nat) (s s' : string) :
  is_param_name s → is_param_name s' →
  hidden_prefix i +:+ s = hidden_prefix j +:+ s' → i = j ∧ s = s'.
Proof.
  intros Hs Hs' H. unfold hidden_prefix in H.
  rewrite !string_app_assoc in H.
  apply (inj (String.app _)) in H.
  assert (s = s') as <-.
  { apply (f_equal last_char) in H.
    destruct Hs as [-> | ->], Hs' as [-> | ->]; try done;
      change ("." +:+ "weight") with (String "."%char "weight") in H;
      change ("." +:+ "bias") with (String "."%char "bias") in H;
      rewrite !last_char_app in H; discriminate H. }
  split; [|done].
  apply string_app_inj_r in H. by apply (inj pretty) in H.
Qed.

Lemma hidden_key_ne_output (i : nat) (s s' : string) :
  hidden_prefix i +:+ s ≠ output_prefix +:+ s'.
Proof.
  unfold hidden_prefix, output_prefix. rewrite !string_app_assoc.
  discriminate.
Qed.

End Keys.

(** ** Looking parameters up in a snapshot *)

Section Lookup.

Lemma sd_lookup_app (key : string) (sd1 sd2 : StateDict) :
  sd_lookup key (sd1 ++ sd2) =
    match sd_lookup key sd1 with
    | Some t => Some t
    | None => sd_lookup key sd2
    end.
Proof.
  induction sd1 as [|[k t] sd1 IH]; [done|].
  cbn [sd_lookup app]. by destruct (decide (k = key)).
Qed.

Lemma sd_lookup_None_keys (key : string) (sd : StateDict) :
  sd_lookup key sd = None ↔ key ∉ sd_keys sd.
Proof.
  unfold sd_keys. induction sd as [|[k t] sd IH].
  - split; [intros _; apply not_elem_of_nil | done].
  - cbn [sd_lookup fmap list_fmap fst]. rewrite not_elem_of_cons.
    destruct (decide (k = key)) as [->|Hne].
    + split; [done | intros [? _]; done].
    + rewrite IH. split; [intros ?; split; [by intros -> | done] | by intros [_ ?]].
Qed.

Lemma sd_keys_hidden (i : nat) (ls : list Linear) :
  sd_keys (hidden_parameters i ls) =
    k ← seq i (length ls);
    [hidden_prefix k +:+ "weight"; hidden_prefix k +:+ "bias"].
Proof.
  revert i. induction ls as [|l ls IH]; intros i; [done|].
  cbn [hidden_parameters length seq]. rewrite bind_cons, <-IH. done.
Qed.

Lemma sd_lookup_hidden_output (i : nat) (ls : list Linear) (s : string) :
  sd_lookup (output_prefix +:+ s) (hidden_parameters i ls) = None.
Proof.
  apply sd_lookup_None_keys. rewrite sd_keys_hidden.
  intros (k & Hk & _)%list_elem_of_bind.
  apply elem_of_cons in Hk as [Hk | Hk%list_elem_of_singleton];
    symmetry in Hk; by apply hidden_key_ne_output in Hk.
Qed.

Lemma sd_lookup_hidden (i j : nat) (ls : list Linear) (l : Linear) :
  ls !! j = Some l →
  sd_lookup (hidden_prefix (i + j) +:+ "weight") (hidden_parameters i ls)
    = Some (weight l) ∧
  sd_lookup (hidden_prefix (i + j) +:+ "bias") (hidden_parameters i ls)
    = Some (bias l).
Proof.
  revert i j. induction ls as [|l0 ls IH]; intros i j Hj; [done|].
  cbn [hidden_parameters Linear_parameters app sd_lookup].
  destruct j as [|j]; cbn [lookup list_lookup] in Hj.
  - injection Hj as ->. rewrite Nat.add_0_r. rewrite decide_True by done.
    rewrite decide_False, decide_True; [done..|].
    intros [_ [=]]%hidden_key_inj; unfold is_param_name; auto.
  - rewrite !decide_False.
    + replace (i + S j) with (S i + j) by lia. by apply IH.
    + intros [? _]%hidden_key_inj; unfold is_param_name; auto. lia.
    + intros [? _]%hidden_key_inj; unfold is_param_name; auto. lia.
    + intros [? _]%hidden_key_inj; unfold is_param_name; auto. lia.
    + intros [? _]%hidden_key_inj; unfold is_param_name; auto. lia.
Qed.

(** Every parameter of a model is found in its own snapshot. *)
Lemma state_dict_lookup_hidden (model : Model) (j : nat) (l : Linear) :
  hidden_layers model !! j = Some l →
  sd_lookup (hidden_prefix j +:+ "weight") (state_dict model) = Some (weight l) ∧
  sd_lookup (hidden_prefix j +:+ "bias") (state_dict model) = Some (bias l).
Proof.
  intros Hj. unfold state_dict. rewrite !sd_lookup_app.
  destruct (sd_lookup_hidden 0 j _ _ Hj) as [Hw Hb].
  cbn [Nat.add] in Hw, Hb. by rewrite Hw, Hb.
Qed.

Lemma state_dict_lookup_output (model : Model) :
  sd_lookup (output_prefix +:+ "weight") (state_dict model)
    = Some (weight (output model)) ∧
  sd_lookup (output_prefix +:+ "bias") (state_dict model)
    = Some (bias (output model)).
Proof.
  unfold state_dict. rewrite !sd_lookup_app, !sd_lookup_hidden_output.
  split; reflexivity.
Qed.

End Lookup.

(** ** Restoring the snapshot of a model of the same architecture *)

Section Restore.

Lemma load_param_copied (sd : StateDict) (key : string) (param t : Tensor) :
  sd_lookup key sd = Some t → shape t = shape param →
  load_param sd key param = (t, Copied key).
Proof.
  intros Hl Hs. unfold load_param. rewrite Hl, decide_True by done.
  unfold copy_. rewrite <-Hs. by destruct t.
Qed.

Lemma load_Linear_restored (sd : StateDict) (prefix : string) (l l' : Linear) :
  sd_lookup (prefix +:+ "weight") sd = Some (weight l) →
  sd_lookup (prefix +:+ "bias") sd = Some (bias l) →
  same_shape l l' →
  load_Linear sd prefix l' =
    (restored l l', [Copied (prefix +:+ "weight"); Copied (prefix +:+ "bias")]).
Proof.
  intros Hw Hb [Hsw Hsb]. unfold load_Linear.
  by rewrite (load_param_copied _ _ _ _ Hw Hsw),
    (load_param_copied _ _ _ _ Hb Hsb).
Qed.

Lemma load_hidden_restored (sd : StateDict) (i : nat) (ls ls' : list Linear) :
  Forall2 same_shape ls ls' →
  (∀ j l, ls !! j = Some l →
     sd_lookup (hidden_prefix (i + j) +:+ "weight") sd = Some (weight l) ∧
     sd_lookup (hidden_prefix (i + j) +:+ "bias") sd = Some (bias l)) →
  load_hidden sd i ls' =
    (zip_with restored ls ls', Copied <$> sd_keys (hidden_parameters i ls)).
Proof.
  intros Hs. revert i. induction Hs as [|l l' ls ls' Hl Hs IH]; intros i H.
  - done.
  - cbn [load_hidden]. destruct (H 0 l eq_refl) as [Hw Hb].
    rewrite Nat.add_0_r in Hw, Hb.
    rewrite (load_Linear_restored _ _ _ _ Hw Hb Hl), IH; [done|].
    intros j l0 Hj. replace (S i + j) with (i + S j) by lia. by apply H.
Qed.

Lemma hidden_parameters_restored (i : nat) (ls ls' : list Linear) :
  length ls = length ls' →
  hidden_parameters i (zip_with restored ls ls') = hidden_parameters i ls.
Proof.
  revert i ls'. induction ls as [|l ls IH]; intros i [|l' ls'] ?;
    simplify_eq/=; [done|].
  by rewrite IH.
Qed.

Lemma outcomes_copied (ks : list string) :
  copied (Copied <$> ks) = ks ∧
  missing_keys (Copied <$> ks) = [] ∧
  size_mismatches (Copied <$> ks) = [].
Proof.
  unfold copied, missing_keys, size_mismatches.
  induction ks as [|k ks (IH1 & IH2 & IH3)]; [done|].
  cbn. by rewrite IH1, IH2, IH3.
Qed.

Lemma sd_keys_state_dict (model : Model) :
  sd_keys (state_dict model) =
    sd_keys (hidden_parameters 0 (hidden_layers model))
    ++ [output_prefix +:+ "weight"; output_prefix +:+ "bias"].
Proof. unfold state_dict, sd_keys. by rewrite fmap_app. Qed.

Lemma filter_not_elem_of_nil (l l' : list string) :
  (∀ k, k ∈ l' → k ∈ l) → filter (λ k, k ∉ l) l' = [].
Proof.
  induction l' as [|k l' IH]; intros H; [done|].
  rewrite filter_cons_False.
  - apply IH. intros k' Hk'. apply H. by right.
  - intros Hk. apply Hk, H. left.
Qed.

Lemma unexpected_keys_same (m m' : Model) :
  length (hidden_layers m) = length (hidden_layers m') →
  unexpected_keys m' (state_dict m) = [].
Proof.
  intros Hlen. unfold unexpected_keys.
  apply filter_not_elem_of_nil. intros k.
  by rewrite !sd_keys_state_dict, !sd_keys_hidden, Hlen.
Qed.

(** Loading the snapshot of [m] into a model [m'] with the same parameter
    shapes copies every parameter and raises nothing. *)
Lemma load_state_dict_restored (m m' : Model) :
  Forall2 same_shape (hidden_layers m) (hidden_layers m') →
  same_shape (output m) (output m') →
  load_state_dict m' (state_dict m) =
    ({| hidden_layers := zip_with restored (hidden_layers m) (hidden_layers m');
        output := restored (output m) (output m');
        dropout := dropout m' |},
     (CopyParam <$> sd_keys (state_dict m), Ok ())).
Proof.
  intros Hh Ho. unfold load_state_dict.
  rewrite (load_hidden_restored _ 0 _ _ Hh)
    by (intros j l Hj; by apply state_dict_lookup_hidden).
  destruct (state_dict_lookup_output m) as [Hw Hb].
  rewrite (load_Linear_restored _ _ _ _ Hw Hb Ho).
  unfold error_msgs.
  rewrite (unexpected_keys_same m m') by by eapply Forall2_length.
  change [Copied (output_prefix +:+ "weight"); Copied (output_prefix +:+ "bias")]
    with (Copied <$> [output_prefix +:+ "weight"; output_prefix +:+ "bias"]).
  rewrite <-fmap_app, <-sd_keys_state_dict.
  destruct (outcomes_copied (sd_keys (state_dict m))) as (-> & -> & ->).
  done.
Qed.

Lemma state_dict_restored (m m' : Model) :
  length (hidden_layers m) = length (hidden_layers m') →
  state_dict {| hidden_layers := zip_with restored (hidden_layers m) (hidden_layers m');
                output := restored (output m) (output m');
                dropout := dropout m' |} = state_dict m.
Proof.
  intros Hlen. unfold state_dict. cbn [hidden_layers output].
  by rewrite hidden_parameters_restored.
Qed.

(** The factory gives the same shapes whatever the random draws. *)
Lemma chain_same_shape (g g' : nat → Z) (pos pos' n_in : nat) (hs : list nat) :
  Forall2 same_shape (fc_model.chain g pos n_in hs)
    (fc_model.chain g' pos' n_in hs).
Proof.
  revert pos pos' n_in. induction hs as [|h hs IH]; intros pos pos' n_in.
  - constructor.
  - cbn [fc_model.chain]. constructor; [done | apply IH].
Qed.

Lemma chain_out_features (g : nat → Z) (pos n_in : nat) (hs : list nat) :
  out_features <$> fc_model.chain g pos n_in hs = hs.
Proof.
  revert pos n_in. induction hs as [|h hs IH]; intros pos n_in; [done|].
  cbn [fc_model.chain fmap list_fmap]. f_equal. apply IH.
Qed.

Lemma chain_length (g : nat → Z) (pos n_in : nat) (hs : list nat) :
  length (fc_model.chain g pos n_in hs) = length hs.
Proof. by rewrite <-(chain_out_features g pos n_in hs) at 2; rewrite length_fmap. Qed.

End Restore.

(** ** Running [load_checkpoint] step by step *)

Section Exec.

Lemma bind_lift_Ok {A B} (a : A) (f : A → exec B) :
  (lift (Ok a) ≫= f) = f a.
Proof. unfold lift, mbind, exec_bind. by destruct (f a). Qed.

Lemma bind_Ok {A B} (log : list event) (a : A) (f : A → exec B) :
  ((log, Ok a) ≫= f) = (log ++ (f a).1, (f a).2).
Proof. unfold mbind, exec_bind. by destruct (f a). Qed.

Lemma as_size_of_nat (n : nat) : as_size (PyInt (Z.of_nat n)) = Some n.
Proof.
  unfold as_size. rewrite decide_True by lia. by rewrite Nat2Z.id.
Qed.

Lemma as_sizes_of_nat (hs : list nat) :
  as_sizes (PyIntList (Z.of_nat <$> hs)) = Some hs.
Proof.
  unfold as_sizes. apply mapM_Some. induction hs as [|h hs IH]; cbn.
  - constructor.
  - constructor; [apply as_size_of_nat | done].
Qed.

Lemma checkpoint_lookup (model : Model) :
  checkpoint model !! "input_size" = Some (PyInt 784) ∧
  checkpoint model !! "output_size" = Some (PyInt 10) ∧
  checkpoint model !! "hidden_layers" =
    Some (PyIntList ((λ each, Z.of_nat (out_features each)) <$> hidden_layers model)) ∧
  checkpoint model !! "state_dict" = Some (PyStateDict (state_dict model)).
Proof. unfold checkpoint. repeat split; by simplify_map_eq. Qed.

End Exec.

(** ** Saving and loading back *)

Section SaveLoad.

Context {artifact : Type}.
Variable encode : PyVal → artifact.
Variable decode : artifact → option PyVal.

(** [torch.load] reads back what [torch.save] wrote. *)
Hypothesis decode_encode : ∀ obj, decode (encode obj) = Some obj.

Lemma torch_load_save (obj : PyVal) (f : string) (fs : gmap string artifact) :
  torch_load decode f (torch_save encode obj f fs) = Ok obj.
Proof.
  unfold torch_load, torch_save. by rewrite lookup_insert_eq, decode_encode.
Qed.

(** The model that [load_checkpoint] returns for the artifact of cell 11,
    for a network with the widths the cell writes down. *)
Lemma load_checkpoint_saved (g g' : nat → Z) (hs : list nat) (p : Q) (fs : gmap string artifact) :
  let M := fc_model.Network g 784 10 hs p in
  let F := fc_model.Network g' 784 10 hs fc_model.default_drop_p in
  load_checkpoint decode g' (save_checkpoint encode M fs) "checkpoint.pth" =
    (CallNetwork (PyInt 784) (PyInt 10) (PyIntList (Z.of_nat <$> hs))
       :: (CopyParam <$> sd_keys (state_dict M)),
     Ok {| hidden_layers := zip_with restored (hidden_layers M) (hidden_layers F);
           output := restored (output M) (output F);
           dropout := fc_model.default_drop_p |}).
Proof.
  intros M F. unfold load_checkpoint, save_checkpoint.
  rewrite torch_load_save, bind_lift_Ok.
  destruct (checkpoint_lookup M) as (Hi & Ho & Hh & Hs).
  cbn [getitem]. rewrite Hi, Ho, Hh, Hs, !bind_lift_Ok.
  assert ((λ each, Z.of_nat (out_features each)) <$> hidden_layers M
          = Z.of_nat <$> hs) as ->.
  { rewrite (list_fmap_compose out_features Z.of_nat). f_equal.
    apply chain_out_features. }
  unfold call_Network.
  change (as_size (PyInt 784)) with (as_size (PyInt (Z.of_nat 784))).
  change (as_size (PyInt 10)) with (as_size (PyInt (Z.of_nat 10))).
  rewrite !as_size_of_nat, as_sizes_of_nat, bind_Ok.
  fold F. rewrite bind_lift_Ok.
  unfold call_load_state_dict.
  rewrite (load_state_dict_restored M F).
  - rewrite bind_Ok. cbn [mret exec_ret fst snd app].
    by rewrite app_nil_r.
  - apply chain_same_shape.
  - unfold M, F, fc_model.Network; cbn [output]. done.
Qed.

End SaveLoad.

(** ** Architecture of the rebuilt model *)

Section Architecture.

Lemma chain_widths (g g' : nat → Z) (pos pos' n_in : nat) (hs : list nat) :
  (λ l, (in_features l, out_features l)) <$> fc_model.chain g pos n_in hs =
  (λ l, (in_features l, out_features l)) <$> fc_model.chain g' pos' n_in hs.
Proof.
  revert pos pos' n_in. induction hs as [|h hs IH]; intros pos pos' n_in; [done|].
  cbn [fc_model.chain fmap list_fmap]. f_equal. apply IH.
Qed.

Lemma architecture_Network (g g' : nat → Z) (i o : nat) (hs : list nat) (p p' : Q) :
  architecture (fc_model.Network g i o hs p) =
  architecture (fc_model.Network g' i o hs p').
Proof.
  unfold architecture, fc_model.Network. cbn [hidden_layers output nn_Linear
    in_features out_features]. f_equal. apply chain_widths.
Qed.

Lemma widths_restored (ls ls' : list Linear) :
  length ls = length ls' →
  (λ l, (in_features l, out_features l)) <$> zip_with restored ls ls' =
  (λ l, (in_features l, out_features l)) <$> ls'.
Proof.
  revert ls'. induction ls as [|l ls IH]; intros [|l' ls'] ?; simplify_eq/=; [done|].
  by rewrite IH.
Qed.

Lemma checkpoint_no_float (model : Model) (key : string) (q : Q) :
  checkpoint model !! key ≠ Some (PyFloat q).
Proof.
  unfold checkpoint.
  destruct (decide (key = "input_size")) as [->|]; [by simplify_map_eq|].
  destruct (decide (key = "output_size")) as [->|]; [by simplify_map_eq|].
  destruct (decide (key = "hidden_layers")) as [->|]; [by simplify_map_eq|].
  destruct (decide (key = "state_dict")) as [->|]; by simplify_map_eq.
Qed.

End Architecture.

(** ** What a call of [load_state_dict] that raises nothing has done *)

Section Validation.

Lemma load_param_cases (sd : StateDict) (key : string) (param : Tensor) :
  (∃ t, load_param sd key param = (t, Copied key) ∧
        sd_lookup key sd = Some t ∧ shape t = shape param) ∨
  (∃ s, load_param sd key param = (param, Mismatch key s (shape param)) ∧
        s ≠ shape param) ∨
  (load_param sd key param = (param, Missing key) ∧ sd_lookup key sd = None).
Proof.
  unfold load_param. destruct (sd_lookup key sd) as [t|]; [|by right; right].
  destruct (decide (shape t = shape param)) as [Hs|Hs].
  - left. exists t. unfold copy_. rewrite <-Hs. by destruct t.
  - right. left. by exists (shape t).
Qed.

Lemma load_Linear_Ok (sd : StateDict) (prefix : string) (l l' : Linear)
    (os : list outcome) :
  load_Linear sd prefix l = (l', os) →
  missing_keys os = [] → size_mismatches os = [] →
  Forall2 (assigned_from sd) (Linear_parameters prefix l)
    (Linear_parameters prefix l') ∧
  os = Copied <$> sd_keys (Linear_parameters prefix l).
Proof.
  unfold load_Linear.
  destruct (load_param_cases sd (prefix +:+ "weight") (weight l))
    as [(tw & -> & Hw & Hsw) | [(s & -> & _) | [-> _]]];
  destruct (load_param_cases sd (prefix +:+ "bias") (bias l))
    as [(tb & -> & Hb & Hsb) | [(s' & -> & _) | [-> _]]];
  intros [= <- <-]; try discriminate.
  intros _ _. split; [|done].
  unfold Linear_parameters. cbn [weight bias].
  repeat constructor; done.
Qed.

Lemma load_hidden_Ok (sd : StateDict) (i : nat) (ls ls' : list Linear)
    (os : list outcome) :
  load_hidden sd i ls = (ls', os) →
  missing_keys os = [] → size_mismatches os = [] →
  Forall2 (assigned_from sd) (hidden_parameters i ls) (hidden_parameters i ls') ∧
  os = Copied <$> sd_keys (hidden_parameters i ls).
Proof.
  revert i ls' os. induction ls as [|l ls IH]; intros i ls' os.
  - intros [= <- <-] _ _. split; [constructor | done].
  - cbn [load_hidden].
    destruct (load_Linear sd (hidden_prefix i) l) as [l1 o1] eqn:E1.
    destruct (load_hidden sd (S i) ls) as [ls1 o2] eqn:E2.
    intros [= <- <-]. unfold missing_keys, size_mismatches.
    rewrite !omap_app. intros [Hm1 Hm2]%app_nil [Hs1 Hs2]%app_nil.
    destruct (load_Linear_Ok _ _ _ _ _ E1 Hm1 Hs1) as [HF1 ->].
    destruct (IH _ _ _ E2 Hm2 Hs2) as [HF2 ->].
    cbn [hidden_parameters]. split.
    + by apply Forall2_app.
    + unfold sd_keys. by rewrite !fmap_app.
Qed.

Lemma load_state_dict_Ok (model model' : Model) (sd : StateDict)
    (log : list event) :
  load_state_dict model sd = (model', (log, Ok ())) →
  Forall2 (assigned_from sd) (state_dict model) (state_dict model') ∧
  log = CopyParam <$> sd_keys (state_dict model).
Proof.
  unfold load_state_dict.
  destruct (load_hidden sd 0 (hidden_layers model)) as [hl o1] eqn:E1.
  destruct (load_Linear sd output_prefix (output model)) as [out o2] eqn:E2.
  destruct (error_msgs model sd (o1 ++ o2)) as [|m msgs] eqn:E; [|done].
  intros [= <- <-]. unfold error_msgs in E.
  apply app_nil in E as [Em [Eu Es]%app_nil].
  destruct (decide (missing_keys (o1 ++ o2) = [])) as [Hm|]; [|done].
  unfold missing_keys in Hm. unfold size_mismatches in Es.
  rewrite omap_app in Hm. rewrite omap_app in Es.
  apply app_nil in Hm as [Hm1 Hm2]. apply app_nil in Es as [Hs1 Hs2].
  destruct (load_hidden_Ok _ _ _ _ _ E1 Hm1 Hs1) as [HF1 ->].
  destruct (load_Linear_Ok _ _ _ _ _ E2 Hm2 Hs2) as [HF2 ->].
  split.
  - unfold state_dict. cbn [hidden_layers output]. by apply Forall2_app.
  - rewrite <-fmap_app. destruct (outcomes_copied
      (sd_keys (hidden_parameters 0 (hidden_layers model))
       ++ sd_keys (Linear_parameters output_prefix (output model)))) as [-> _].
    by rewrite sd_keys_state_dict.
Qed.

(** A call that raises nothing found no key without a parameter. *)
Lemma load_state_dict_Ok_unexpected (model model' : Model) (sd : StateDict)
    (log : list event) :
  load_state_dict model sd = (model', (log, Ok ())) →
  unexpected_keys model sd = [].
Proof.
  unfold load_state_dict.
  destruct (load_hidden sd 0 (hidden_layers model)) as [hl o1].
  destruct (load_Linear sd output_prefix (output model)) as [out o2].
  destruct (error_msgs model sd (o1 ++ o2)) as [|m msgs] eqn:E; [|done].
  intros _. unfold error_msgs in E.
  apply app_nil in E as [_ [Eu _]%app_nil].
  by destruct (decide (unexpected_keys model sd = [])).
Qed.

End Validation.

(** ** Keys that the snapshot lacks *)

Section MissingKeys.

Lemma load_Linear_missing (sd : StateDict) (prefix key : string) (l : Linear) :
  key ∈ sd_keys (Linear_parameters prefix l) → key ∉ sd_keys sd →
  key ∈ missing_keys (load_Linear sd prefix l).2.
Proof.
  intros Hk Hn%sd_lookup_None_keys. unfold load_Linear, load_param.
  cbn [sd_keys Linear_parameters fmap list_fmap fst] in Hk.
  apply elem_of_cons in Hk as [-> | Hk%list_elem_of_singleton].
  - rewrite Hn. destruct (sd_lookup (prefix +:+ "bias") sd) as [t|];
      [destruct (decide (shape t = shape (bias l)))|]; cbn; left.
  - subst key. rewrite Hn.
    destruct (sd_lookup (prefix +:+ "weight") sd) as [t|];
      [destruct (decide (shape t = shape (weight l)))|]; cbn;
      repeat constructor.
Qed.

Lemma load_hidden_missing (sd : StateDict) (i : nat) (key : string)
    (ls : list Linear) :
  key ∈ sd_keys (hidden_parameters i ls) → key ∉ sd_keys sd →
  key ∈ missing_keys (load_hidden sd i ls).2.
Proof.
  revert i. induction ls as [|l ls IH]; intros i Hk Hn.
  - by apply elem_of_nil in Hk.
  - cbn [load_hidden hidden_parameters] in *.
    pose proof (load_Linear_missing sd (hidden_prefix i) key l) as H1.
    specialize (IH (S i)).
    destruct (load_Linear sd (hidden_prefix i) l) as [l1 o1].
    destruct (load_hidden sd (S i) ls) as [ls1 o2].
    cbn [snd] in *. unfold missing_keys in *. rewrite omap_app.
    unfold sd_keys in Hk. rewrite fmap_app in Hk.
    apply elem_of_app in Hk as [Hk | Hk]; apply elem_of_app; auto.
Qed.

Lemma load_state_dict_missing (model : Model) (sd : StateDict) (key : string) :
  key ∈ sd_keys (state_dict model) → key ∉ sd_keys sd →
  ∃ keys msgs,
    (load_state_dict model sd).2.2 = Err (RuntimeError (MissingKeys keys :: msgs)) ∧
    key ∈ keys.
Proof.
  intros Hk Hn. unfold load_state_dict.
  pose proof (load_hidden_missing sd 0 key (hidden_layers model)) as H1.
  pose proof (load_Linear_missing sd output_prefix key (output model)) as H2.
  destruct (load_hidden sd 0 (hidden_layers model)) as [hl o1].
  destruct (load_Linear sd output_prefix (output model)) as [out o2].
  cbn [snd] in *.
  assert (key ∈ missing_keys (o1 ++ o2)) as Hin.
  { unfold missing_keys in *. rewrite omap_app. apply elem_of_app.
    unfold state_dict, sd_keys in Hk. rewrite fmap_app in Hk.
    apply elem_of_app in Hk as [Hk | Hk]; auto. }
  unfold error_msgs.
  destruct (decide (missing_keys (o1 ++ o2) = [])) as [E|_].
  - rewrite E in Hin. by apply elem_of_nil in Hin.
  - eexists _, _. split; [cbn; reflexivity | done].
Qed.

End MissingKeys.

(** * The properties of the specification *)

(** C1, as stated, fails: a model of input width 4 is saved with the
    literal input width 784 of cell 11, so [load_checkpoint] rebuilds a
    network whose first weight has another shape and [load_state_dict]
    raises. *)
Lemma roundtrip_fails_for_other_input_width :
  let D := {| input_size := 4; output_size := 10; hidden_sizes := [2; 3];
              dropout_rate := 1 # 2 |} in
  valid_descriptor D ∧
  load_checkpoint Some (λ _, 0%Z)
    (save_checkpoint id (build Z.of_nat D) ∅) "checkpoint.pth"
  = ([CallNetwork (PyInt 784) (PyInt 10) (PyIntList [2%Z; 3%Z]);
      CopyParam "hidden_layers.0.bias"; CopyParam "hidden_layers.1.weight";
      CopyParam "hidden_layers.1.bias"; CopyParam "output.weight";
      CopyParam "output.bias"],
     Err (RuntimeError [SizeMismatch "hidden_layers.0.weight" [2; 4] [2; 784]])) ∧
  ¬ ∃ log M',
      load_checkpoint Some (λ _, 0%Z)
        (save_checkpoint id (build Z.of_nat D) ∅) "checkpoint.pth" = (log, Ok M') ∧
      state_dict M' = state_dict (build Z.of_nat D).
Proof.
  intros D. split; [|split].
  - unfold valid_descriptor, D. cbn. repeat split; try lia.
    + repeat constructor.
    + by vm_compute.
  - by vm_compute.
  - intros (log & M' & H & _). vm_compute in H. discriminate H.
Qed.

(** C1, amended: for every model built from a descriptor with input width
    784 and output width 10, saving it with cell 11 and loading the artifact
    back with [load_checkpoint] returns a model whose parameter snapshot is
    the snapshot of the saved model: the same keys in the same order, with
    identical tensors.  The random draws of the rebuilt model leave no
    trace. *)
Theorem save_load_roundtrip {artifact : Type}
    (encode : PyVal → artifact) (decode : artifact → option PyVal)
    (g g' : nat → Z) (D : Descriptor) (fs : gmap string artifact) :
  (∀ obj, decode (encode obj) = Some obj) →
  input_size D = 784 → output_size D = 10 →
  ∃ log M',
    load_checkpoint decode g' (save_checkpoint encode (build g D) fs)
      "checkpoint.pth" = (log, Ok M') ∧
    state_dict M' = state_dict (build g D).
Proof.
  intros Hcodec Hi Ho. destruct D as [i o hs p]. cbn in Hi, Ho. subst i o.
  unfold build. cbn [input_size output_size hidden_sizes dropout_rate].
  eexists _, _. split.
  - by apply load_checkpoint_saved.
  - apply state_dict_restored. cbn [fc_model.Network hidden_layers].
    by rewrite !chain_length.
Qed.

Lemma save_load_roundtrip_witness :
  let D := {| input_size := 784; output_size := 10; hidden_sizes := [3; 2];
              dropout_rate := 1 # 5 |} in
  ∃ log M',
    load_checkpoint Some (λ _, 0%Z)
      (save_checkpoint id (build Z.of_nat D) ∅) "checkpoint.pth" = (log, Ok M') ∧
    state_dict M' = state_dict (build Z.of_nat D).
Proof.
  apply (save_load_roundtrip id Some); reflexivity.
Defined.

(** C2, as stated, fails: the keys the error enumerates carry the prefix
    [hidden_layers], the name of the module list, not [hidden]. *)
Lemma mismatch_keys_not_hidden :
  ¬ ∃ e,
      (load_state_dict
         (fc_model.Network (λ _, 0%Z) 784 10 [400; 200; 100] (1 # 2))
         (state_dict (fc_model.Network (λ _, 0%Z) 784 10 [512; 256; 128] (1 # 2)))).2.2
      = Err e ∧
      shape_diff e =
        [("hidden.0.weight", [512; 784], [400; 784]);
         ("hidden.0.bias", [512], [400]);
         ("hidden.1.weight", [256; 512], [200; 400]);
         ("hidden.1.bias", [256], [200]);
         ("hidden.2.weight", [128; 256], [100; 200]);
         ("hidden.2.bias", [128], [100]);
         ("output.weight", [10; 128], [10; 100])].
Proof.
  intros (e & H & Hd). lazy in H. injection H as <-. lazy in Hd.
  discriminate Hd.
Qed.

(** C2, amended: loading the snapshot of a network of hidden widths
    [512, 256, 128] into a freshly built network of hidden widths
    [400, 200, 100] (both 784 wide at the input and 10 at the output) raises
    the [RuntimeError] of [load_state_dict], which enumerates exactly seven
    size mismatches, for the keys [hidden_layers.0.weight],
    [hidden_layers.0.bias], [hidden_layers.1.weight], [hidden_layers.1.bias],
    [hidden_layers.2.weight], [hidden_layers.2.bias] and [output.weight],
    each with the shape in the checkpoint and the shape in the model. *)
Theorem load_state_dict_mismatch (g g' : nat → Z) (p p' : Q) :
  (load_state_dict
     (fc_model.Network g' 784 10 [400; 200; 100] p')
     (state_dict (fc_model.Network g 784 10 [512; 256; 128] p))).2.2
  = Err (RuntimeError
      [SizeMismatch "hidden_layers.0.weight" [512; 784] [400; 784];
       SizeMismatch "hidden_layers.0.bias" [512] [400];
       SizeMismatch "hidden_layers.1.weight" [256; 512] [200; 400];
       SizeMismatch "hidden_layers.1.bias" [256] [200];
       SizeMismatch "hidden_layers.2.weight" [128; 256] [100; 200];
       SizeMismatch "hidden_layers.2.bias" [128] [100];
       SizeMismatch "output.weight" [10; 128] [10; 100]]).
Proof. lazy. reflexivity. Qed.

(** C9: the snapshot of a network built with [n] hidden layers has exactly
    [2n+2] keys: [hidden_layers.i.weight] and [hidden_layers.i.bias] for
    each [i] from [0] to [n-1] in forward order, then [output.weight] and
    [output.bias].  The keys depend on the number of hidden layers only, not
    on the random draws, the widths or the dropout probability. *)
Theorem state_dict_keys (g : nat → Z) (i o : nat) (hs : list nat) (p : Q) :
  sd_keys (state_dict (fc_model.Network g i o hs p)) = network_keys (length hs) ∧
  length (sd_keys (state_dict (fc_model.Network g i o hs p))) = 2 * length hs + 2.
Proof.
  assert (sd_keys (state_dict (fc_model.Network g i o hs p))
          = network_keys (length hs)) as ->.
  { rewrite sd_keys_state_dict, sd_keys_hidden. unfold network_keys.
    cbn [fc_model.Network hidden_layers]. rewrite chain_length. f_equal.
    apply list_bind_ext; [|done]. intros k. unfold hidden_prefix.
    by rewrite !string_app_assoc. }
  split; [done|]. unfold network_keys. rewrite length_app. cbn [length].
  generalize 0 at 1. induction (length hs) as [|n IH]; intros k; [done|].
  cbn [seq]. rewrite bind_cons, length_app. cbn [length].
  specialize (IH (S k)). lia.
Qed.

(** The keys cells 6 and 8 print for the network of hidden widths
    [512, 256, 128]. *)
Example network_keys_3 :
  network_keys 3 =
    ["hidden_layers.0.weight"; "hidden_layers.0.bias";
     "hidden_layers.1.weight"; "hidden_layers.1.bias";
     "hidden_layers.2.weight"; "hidden_layers.2.bias";
     "output.weight"; "output.bias"].
Proof. reflexivity. Qed.

(** C10: when the mapping read from the file lacks [input_size],
    [output_size] or [hidden_layers], [load_checkpoint] raises the
    [KeyError] of the first missing field, with an empty call log: the
    factory has not been called and no parameter has been copied. *)
Theorem load_checkpoint_missing_field {artifact : Type}
    (decode : artifact → option PyVal) (g : nat → Z)
    (fs : gmap string artifact) (filepath : string) (checkpoint : PyVal) :
  torch_load decode filepath fs = Ok checkpoint →
  lacks checkpoint "input_size" ∨ lacks checkpoint "output_size"
    ∨ lacks checkpoint "hidden_layers" →
  ∃ key, key ∈ ["input_size"; "output_size"; "hidden_layers"] ∧
    lacks checkpoint key ∧
    load_checkpoint decode g fs filepath = ([], Err (KeyError key)).
Proof.
  intros Hload Hmiss. unfold load_checkpoint.
  rewrite Hload, bind_lift_Ok.
  assert (∀ key, returns (getitem checkpoint key) ∨ lacks checkpoint key)
    as Hmap.
  { intros key. unfold lacks in *.
    destruct checkpoint as [| | | | |sd|d]; cbn [getitem] in *;
      try (by destruct Hmiss as [? | [? | ?]]).
    - destruct (sd_lookup key sd); [by left | by right].
    - destruct (d !! key); [by left | by right]. }
  destruct (Hmap "input_size") as [H1 | H1].
  2: { exists "input_size". rewrite H1. split; [repeat constructor | done]. }
  destruct (getitem checkpoint "input_size") as [v1|] eqn:E1; [|done].
  rewrite bind_lift_Ok.
  destruct (Hmap "output_size") as [H2 | H2].
  2: { exists "output_size". rewrite H2. split; [repeat constructor | done]. }
  destruct (getitem checkpoint "output_size") as [v2|] eqn:E2; [|done].
  rewrite bind_lift_Ok.
  destruct (Hmap "hidden_layers") as [H3 | H3].
  2: { exists "hidden_layers". rewrite H3. split; [repeat constructor | done]. }
  destruct (getitem checkpoint "hidden_layers") as [v3|] eqn:E3; [|done].
  unfold lacks in Hmiss. rewrite E1, E2, E3 in Hmiss.
  by destruct Hmiss as [? | [? | ?]].
Qed.

Lemma load_checkpoint_missing_field_witness :
  let stale : gmap string PyVal :=
    {[ "input_size" := PyInt 784; "hidden_layers" := PyIntList [5%Z] ]} in
  ∃ key, key ∈ ["input_size"; "output_size"; "hidden_layers"] ∧
    lacks (PyDict stale) key ∧
    load_checkpoint Some (λ _, 0%Z) {[ "stale.pth" := PyDict stale ]} "stale.pth"
      = ([], Err (KeyError key)).
Proof.
  intros stale.
  apply (load_checkpoint_missing_field Some (λ _, 0%Z)
           {[ "stale.pth" := PyDict stale ]} "stale.pth").
  - reflexivity.
  - right. left. reflexivity.
Defined.

(** C3, as stated, fails: [load_state_dict] copies a parameter as soon as
    its key is found with the right shape, before the later parameters are
    checked.  For a stale checkpoint whose snapshot comes from a network of
    hidden width 4 while its descriptor says 2, [output.bias] is copied into
    the freshly built model and then the call raises. *)
Lemma parameters_copied_before_failure :
  let stale : gmap string PyVal :=
    {[ "input_size" := PyInt 3; "output_size" := PyInt 2;
       "hidden_layers" := PyIntList [2%Z];
       "state_dict" :=
         PyStateDict (state_dict (fc_model.Network Z.of_nat 3 2 [4] (1 # 2))) ]} in
  let fs : gmap string PyVal := {[ "stale.pth" := PyDict stale ]} in
  load_checkpoint Some (λ _, 0%Z) fs "stale.pth"
  = ([CallNetwork (PyInt 3) (PyInt 2) (PyIntList [2%Z]); CopyParam "output.bias"],
     Err (RuntimeError
       [SizeMismatch "hidden_layers.0.weight" [4; 3] [2; 3];
        SizeMismatch "hidden_layers.0.bias" [4] [2];
        SizeMismatch "output.weight" [2; 4] [2; 2]])) ∧
  ¬ (∀ log e, load_checkpoint Some (λ _, 0%Z) fs "stale.pth" = (log, Err e) →
       ∀ key, CopyParam key ∉ log).
Proof.
  intros stale fs.
  assert (load_checkpoint Some (λ _, 0%Z) fs "stale.pth"
    = ([CallNetwork (PyInt 3) (PyInt 2) (PyIntList [2%Z]); CopyParam "output.bias"],
       Err (RuntimeError
         [SizeMismatch "hidden_layers.0.weight" [4; 3] [2; 3];
          SizeMismatch "hidden_layers.0.bias" [4] [2];
          SizeMismatch "output.weight" [2; 4] [2; 2]]))) as H
    by by vm_compute.
  split; [exact H|].
  intros Hno. apply (Hno _ _ H "output.bias"). right. left.
Qed.

(** C3, amended: [load_checkpoint] returns a model only when no check of
    [load_state_dict] failed: the call on the freshly built model raised
    nothing, the snapshot has no key without a parameter, and every
    parameter of the freshly built model has been assigned from the
    snapshot (each parameter name of that model is found in the snapshot
    with a tensor of the parameter's shape, the returned model holds that
    tensor under that name, and the log shows one copy per parameter after
    the call of the factory).  Whenever a check fails the call raises and
    the caller gets no model. *)
Theorem load_checkpoint_assigns_all {artifact : Type}
    (decode : artifact → option PyVal) (g : nat → Z)
    (fs : gmap string artifact) (filepath : string)
    (log : list event) (M : Model) :
  load_checkpoint decode g fs filepath = (log, Ok M) →
  ∃ checkpoint v1 v2 v3 F sd,
    torch_load decode filepath fs = Ok checkpoint ∧
    getitem checkpoint "input_size" = Ok v1 ∧
    getitem checkpoint "output_size" = Ok v2 ∧
    getitem checkpoint "hidden_layers" = Ok v3 ∧
    getitem checkpoint "state_dict" = Ok (PyStateDict sd) ∧
    call_Network g v1 v2 v3 = ([CallNetwork v1 v2 v3], Ok F) ∧
    load_state_dict F sd
      = (M, (CopyParam <$> sd_keys (state_dict F), Ok ())) ∧
    unexpected_keys F sd = [] ∧
    Forall2 (assigned_from sd) (state_dict F) (state_dict M) ∧
    log = CallNetwork v1 v2 v3 :: (CopyParam <$> sd_keys (state_dict F)).
Proof.
  unfold load_checkpoint.
  destruct (torch_load decode filepath fs) as [c|e]; [|done].
  rewrite bind_lift_Ok.
  destruct (getitem c "input_size") as [v1|e] eqn:G1; [|done].
  rewrite bind_lift_Ok.
  destruct (getitem c "output_size") as [v2|e] eqn:G2; [|done].
  rewrite bind_lift_Ok.
  destruct (getitem c "hidden_layers") as [v3|e] eqn:G3; [|done].
  rewrite bind_lift_Ok.
  destruct (call_Network g v1 v2 v3) as [l0 [F|e]] eqn:EF; [|done].
  assert (l0 = [CallNetwork v1 v2 v3]) as ->.
  { unfold call_Network in EF. by injection EF as <- _. }
  rewrite bind_Ok.
  destruct (getitem c "state_dict") as [vs|e] eqn:Es; [|done].
  rewrite bind_lift_Ok. unfold call_load_state_dict.
  destruct vs as [| | | | |sd|]; try done.
  destruct (load_state_dict F sd) as [M' [copies [[]|e]]] eqn:EL; [|done].
  rewrite bind_Ok. cbn [mret exec_ret fst snd app]. rewrite app_nil_r.
  intros [= <- <-].
  pose proof (load_state_dict_Ok_unexpected _ _ _ _ EL) as Hu.
  destruct (load_state_dict_Ok _ _ _ _ EL) as (HF & ->).
  by exists c, v1, v2, v3, F, sd.
Qed.

Lemma load_checkpoint_assigns_all_witness :
  let fs : gmap string PyVal :=
    save_checkpoint id (fc_model.Network Z.of_nat 784 10 [1] (1 # 5)) ∅ in
  let M := fc_model.Network (λ _, 0%Z) 784 10 [1] (1 # 2) in
  let M' := {| hidden_layers :=
                 zip_with restored
                   (hidden_layers (fc_model.Network Z.of_nat 784 10 [1] (1 # 5)))
                   (hidden_layers M);
               output := restored
                   (output (fc_model.Network Z.of_nat 784 10 [1] (1 # 5)))
                   (output M);
               dropout := 1 # 2 |} in
  ∃ checkpoint v1 v2 v3 F sd,
    torch_load Some "checkpoint.pth" fs = Ok checkpoint ∧
    getitem checkpoint "input_size" = Ok v1 ∧
    getitem checkpoint "output_size" = Ok v2 ∧
    getitem checkpoint "hidden_layers" = Ok v3 ∧
    getitem checkpoint "state_dict" = Ok (PyStateDict sd) ∧
    call_Network (λ _, 0%Z) v1 v2 v3 = ([CallNetwork v1 v2 v3], Ok F) ∧
    load_state_dict F sd
      = (M', (CopyParam <$> sd_keys (state_dict F), Ok ())) ∧
    unexpected_keys F sd = [] ∧
    Forall2 (assigned_from sd) (state_dict F) (state_dict M') ∧
    CallNetwork (PyInt 784) (PyInt 10) (PyIntList [1%Z])
      :: (CopyParam <$> network_keys 1)
    = CallNetwork v1 v2 v3 :: (CopyParam <$> sd_keys (state_dict F)).
Proof.
  intros fs M M'.
  apply (load_checkpoint_assigns_all Some (λ _, 0%Z) fs "checkpoint.pth").
  vm_compute. reflexivity.
Defined.

(** C6: when the snapshot of the checkpoint lacks a parameter key of the
    model the factory builds from its descriptor fields, [load_checkpoint]
    raises the [RuntimeError] of [load_state_dict], whose first line lists
    the missing keys, that key among them; no model is returned. *)
Theorem load_checkpoint_missing_key {artifact : Type}
    (decode : artifact → option PyVal) (g : nat → Z)
    (fs : gmap string artifact) (filepath : string)
    (checkpoint v1 v2 v3 : PyVal) (F : Model) (sd : StateDict) (key : string) :
  torch_load decode filepath fs = Ok checkpoint →
  getitem checkpoint "input_size" = Ok v1 →
  getitem checkpoint "output_size" = Ok v2 →
  getitem checkpoint "hidden_layers" = Ok v3 →
  (call_Network g v1 v2 v3).2 = Ok F →
  getitem checkpoint "state_dict" = Ok (PyStateDict sd) →
  key ∈ sd_keys (state_dict F) → key ∉ sd_keys sd →
  ∃ log keys msgs,
    load_checkpoint decode g fs filepath
      = (log, Err (RuntimeError (MissingKeys keys :: msgs))) ∧
    key ∈ keys.
Proof.
  intros Hl H1 H2 H3 HF Hs Hk Hn. unfold load_checkpoint.
  rewrite Hl, bind_lift_Ok, H1, bind_lift_Ok, H2, bind_lift_Ok, H3, bind_lift_Ok.
  destruct (call_Network g v1 v2 v3) as [l0 r]. cbn [snd] in HF. subst r.
  rewrite bind_Ok, Hs, bind_lift_Ok. unfold call_load_state_dict.
  destruct (load_state_dict_missing F sd key Hk Hn) as (keys & msgs & E & Hin).
  destruct (load_state_dict F sd) as [M' [copies r]]. cbn [snd] in E. subst r.
  eexists _, keys, msgs. split; [reflexivity | done].
Qed.

Lemma load_checkpoint_missing_key_witness :
  let pruned : gmap string PyVal :=
    {[ "input_size" := PyInt 3; "output_size" := PyInt 2;
       "hidden_layers" := PyIntList [2%Z];
       "state_dict" :=
         PyStateDict
           (drop 1 (state_dict (fc_model.Network Z.of_nat 3 2 [2] (1 # 2)))) ]} in
  ∃ log keys msgs,
    load_checkpoint Some (λ _, 0%Z) ({[ "pruned.pth" := PyDict pruned ]}) "pruned.pth"
      = (log, Err (RuntimeError (MissingKeys keys :: msgs))) ∧
    "hidden_layers.0.weight" ∈ keys.
Proof.
  intros pruned.
  apply (load_checkpoint_missing_key Some (λ _, 0%Z)
           {[ "pruned.pth" := PyDict pruned ]} "pruned.pth"
           (PyDict pruned) (PyInt 3) (PyInt 2) (PyIntList [2%Z])
           (fc_model.Network (λ _, 0%Z) 3 2 [2] (1 # 2))
           (drop 1 (state_dict (fc_model.Network Z.of_nat 3 2 [2] (1 # 2)))));
    try reflexivity.
  - left.
  - apply (bool_decide_unpack _). vm_compute. exact I.
Defined.

(** C4, as stated, fails: the checkpoint dictionary has no entry for the
    dropout probability, and [load_checkpoint] calls the factory with three
    arguments.  A network built with dropout 0.2 comes back with the default
    dropout 0.5. *)
Lemma dropout_not_restored :
  let D := {| input_size := 784; output_size := 10; hidden_sizes := [4; 3];
              dropout_rate := 1 # 5 |} in
  valid_descriptor D ∧
  ¬ records_dropout (checkpoint (build Z.of_nat D)) (dropout_rate D) ∧
  ¬ ∃ log M',
      load_checkpoint Some (λ _, 0%Z)
        (save_checkpoint id (build Z.of_nat D) ∅) "checkpoint.pth" = (log, Ok M') ∧
      architecture M' = architecture (build Z.of_nat D) ∧
      (dropout M' == dropout (build Z.of_nat D))%Q.
Proof.
  intros D. split; [|split].
  - unfold valid_descriptor, D. cbn. repeat split; try lia.
    + repeat constructor.
    + by vm_compute.
  - intros (key & q & H & _). by apply checkpoint_no_float in H.
  - intros (log & M' & H & _ & Hd). unfold build, D in H, Hd.
    cbn [input_size output_size hidden_sizes dropout_rate] in H, Hd.
    rewrite (load_checkpoint_saved id Some (λ obj, eq_refl)) in H.
    injection H as _ <-. cbn [dropout fc_model.Network] in Hd.
    discriminate Hd.
Qed.

(** C4, amended: the checkpoint dictionary has exactly the four entries
    [input_size], [output_size], [hidden_layers] and [state_dict], and none
    of them is the dropout probability.  For a model built from a descriptor
    with input width 784 and output width 10, [load_checkpoint] rebuilds a
    model with the same widths layer by layer, whose dropout probability is
    the default 0.5 of the factory. *)
Theorem checkpoint_rebuilds_widths {artifact : Type}
    (encode : PyVal → artifact) (decode : artifact → option PyVal)
    (g g' : nat → Z) (D : Descriptor) (fs : gmap string artifact) :
  (∀ obj, decode (encode obj) = Some obj) →
  input_size D = 784 → output_size D = 10 →
  dom (checkpoint (build g D))
    = ({[ "input_size"; "output_size"; "hidden_layers"; "state_dict" ]} : gset string) ∧
  (∀ key q, checkpoint (build g D) !! key ≠ Some (PyFloat q)) ∧
  ∃ log M',
    load_checkpoint decode g' (save_checkpoint encode (build g D) fs)
      "checkpoint.pth" = (log, Ok M') ∧
    architecture M' = architecture (build g D) ∧
    dropout M' = fc_model.default_drop_p.
Proof.
  intros Hcodec Hi Ho. split; [|split].
  - unfold checkpoint. rewrite !dom_insert_L, dom_singleton_L. set_solver.
  - apply checkpoint_no_float.
  - destruct D as [i o hs p]. cbn in Hi, Ho. subst i o.
    unfold build. cbn [input_size output_size hidden_sizes dropout_rate].
    eexists _, _. split; [by apply load_checkpoint_saved|]. split; [|done].
    rewrite (architecture_Network g g' 784 10 hs p fc_model.default_drop_p).
    unfold architecture. cbn [hidden_layers output restored in_features out_features].
    f_equal. apply widths_restored.
    cbn [fc_model.Network hidden_layers]. by rewrite !chain_length.
Qed.

Lemma checkpoint_rebuilds_widths_witness :
  let D := {| input_size := 784; output_size := 10; hidden_sizes := [4; 3];
              dropout_rate := 1 # 5 |} in
  dom (checkpoint (build Z.of_nat D))
    = ({[ "input_size"; "output_size"; "hidden_layers"; "state_dict" ]} : gset string) ∧
  (∀ key q, checkpoint (build Z.of_nat D) !! key ≠ Some (PyFloat q)) ∧
  ∃ log M',
    load_checkpoint Some (λ _, 0%Z)
      (save_checkpoint id (build Z.of_nat D) ∅) "checkpoint.pth" = (log, Ok M') ∧
    architecture M' = architecture (build Z.of_nat D) ∧
    dropout M' = fc_model.default_drop_p.
Proof.
  apply (checkpoint_rebuilds_widths id Some); reflexivity.
Defined.

(** C5, as stated, fails: the input and output widths of the checkpoint are
    the literals 784 and 10 of cell 11, not read off the model, and the
    dropout rate is not read at all.  For a descriptor of input width 100
    the recorded input width is 784. *)
Lemma described_input_width_is_literal :
  let D := {| input_size := 100; output_size := 10; hidden_sizes := [5];
              dropout_rate := 1 # 2 |} in
  valid_descriptor D ∧
  checkpoint (build Z.of_nat D) !! "input_size" = Some (PyInt 784) ∧
  ¬ describes (checkpoint (build Z.of_nat D)) D.
Proof.
  intros D. split; [|split].
  - unfold valid_descriptor, D. cbn. repeat split; try lia.
    + repeat constructor.
    + by vm_compute.
  - apply checkpoint_lookup.
  - intros [(Hi & _) _].
    destruct (checkpoint_lookup (build Z.of_nat D)) as (Hi' & _).
    rewrite Hi' in Hi. discriminate Hi.
Qed.

(** C5, amended: for every descriptor with input width 784 and output width
    10, the descriptor fields of the checkpoint of the model the factory
    builds from it equal the descriptor's input width, output width and
    hidden widths, the latter read off each hidden layer's [out_features] in
    forward order.  The dropout rate is not part of the description. *)
Theorem checkpoint_describes_widths (g : nat → Z) (D : Descriptor) :
  input_size D = 784 → output_size D = 10 →
  describes_widths (checkpoint (build g D)) D.
Proof.
  intros Hi Ho. destruct (checkpoint_lookup (build g D)) as (Hi' & Ho' & Hh' & _).
  unfold describes_widths. rewrite Hi, Ho, Hi', Ho', Hh'.
  repeat split. do 2 f_equal. unfold build, fc_model.Network. cbn [hidden_layers].
  by rewrite (list_fmap_compose out_features Z.of_nat), chain_out_features.
Qed.

Lemma checkpoint_describes_widths_witness :
  describes_widths
    (checkpoint (build Z.of_nat
       {| input_size := 784; output_size := 10; hidden_sizes := [512; 256; 128];
          dropout_rate := 1 # 2 |}))
    {| input_size := 784; output_size := 10; hidden_sizes := [512; 256; 128];
       dropout_rate := 1 # 2 |}.
Proof.
  apply checkpoint_describes_widths; reflexivity.
Defined.

(** * Further properties of the notebook's code *)

(** ** The model that [load_state_dict] leaves behind *)

Section Transfer.

Lemma load_param_transfer (sd : StateDict) (key : string) (param : Tensor) :
  load_param sd key param = (transfer sd key param, param_outcome sd key param).
Proof.
  unfold load_param, transfer, param_outcome.
  destruct (sd_lookup key sd) as [t|]; [|done].
  destruct (decide (shape t = shape param)) as [Hs|]; [|done].
  unfold copy_. rewrite <-Hs. by destruct t.
Qed.

Lemma transfer_shape (sd : StateDict) (key : string) (param : Tensor) :
  shape (transfer sd key param) = shape param.
Proof.
  unfold transfer. destruct (sd_lookup key sd) as [t|]; [|done].
  by destruct (decide (shape t = shape param)).
Qed.

Lemma load_Linear_transfer (sd : StateDict) (prefix : string) (l : Linear) :
  Linear_parameters prefix (load_Linear sd prefix l).1
    = (λ kp, (kp.1, transfer sd kp.1 kp.2)) <$> Linear_parameters prefix l ∧
  (load_Linear sd prefix l).2
    = (λ kp, param_outcome sd kp.1 kp.2) <$> Linear_parameters prefix l ∧
  in_features (load_Linear sd prefix l).1 = in_features l ∧
  out_features (load_Linear sd prefix l).1 = out_features l.
Proof. unfold load_Linear. by rewrite !load_param_transfer. Qed.

Lemma load_hidden_transfer (sd : StateDict) (i : nat) (ls : list Linear) :
  hidden_parameters i (load_hidden sd i ls).1
    = (λ kp, (kp.1, transfer sd kp.1 kp.2)) <$> hidden_parameters i ls ∧
  (load_hidden sd i ls).2
    = (λ kp, param_outcome sd kp.1 kp.2) <$> hidden_parameters i ls ∧
  (λ l, (in_features l, out_features l)) <$> (load_hidden sd i ls).1
    = (λ l, (in_features l, out_features l)) <$> ls.
Proof.
  revert i. induction ls as [|l ls IH]; intros i; [done|].
  cbn [load_hidden hidden_parameters].
  destruct (load_Linear_transfer sd (hidden_prefix i) l) as (H1 & H2 & H3 & H4).
  destruct (IH (S i)) as (I1 & I2 & I3).
  destruct (load_Linear sd (hidden_prefix i) l) as [l1 o1].
  destruct (load_hidden sd (S i) ls) as [ls1 o2].
  cbn [fst snd] in *. cbn [hidden_parameters]. rewrite !fmap_app.
  rewrite H1, H2, I1, I2. repeat split. cbn [fmap list_fmap].
  by rewrite H3, H4, I3.
Qed.

(** The whole call, parameter by parameter. *)
Lemma load_state_dict_transfer (model : Model) (sd : StateDict) :
  let os := (λ kp, param_outcome sd kp.1 kp.2) <$> state_dict model in
  state_dict (load_state_dict model sd).1
    = (λ kp, (kp.1, transfer sd kp.1 kp.2)) <$> state_dict model ∧
  architecture (load_state_dict model sd).1 = architecture model ∧
  dropout (load_state_dict model sd).1 = dropout model ∧
  (load_state_dict model sd).2
    = (CopyParam <$> copied os,
       match error_msgs model sd os with
       | [] => Ok ()
       | msgs => Err (RuntimeError msgs)
       end).
Proof.
  intros os. unfold os, load_state_dict, state_dict, architecture.
  destruct (load_hidden_transfer sd 0 (hidden_layers model)) as (H1 & H2 & H3).
  destruct (load_Linear_transfer sd output_prefix (output model))
    as (O1 & O2 & O3 & O4).
  destruct (load_hidden sd 0 (hidden_layers model)) as [hl o1].
  destruct (load_Linear sd output_prefix (output model)) as [out o2].
  cbn [fst snd hidden_layers output dropout] in *.
  rewrite !fmap_app, H1, H2, H3, O1, O2, O3, O4. done.
Qed.

End Transfer.

(** ** Parameter names are unique *)

Section Unique.

Lemma elem_of_hidden_keys (key : string) (i : nat) (ls : list Linear) :
  key ∈ sd_keys (hidden_parameters i ls) →
  ∃ j s, i ≤ j < i + length ls ∧ is_param_name s ∧ key = hidden_prefix j +:+ s.
Proof.
  rewrite sd_keys_hidden. intros (j & Hk & Hj%elem_of_seq)%list_elem_of_bind.
  apply elem_of_cons in Hk as [-> | ->%list_elem_of_singleton].
  - exists j, "weight". unfold is_param_name. auto.
  - exists j, "bias". unfold is_param_name. auto.
Qed.

Lemma NoDup_hidden_keys (i : nat) (ls : list Linear) :
  NoDup (sd_keys (hidden_parameters i ls)).
Proof.
  revert i. induction ls as [|l ls IH]; intros i; [constructor|].
  cbn [hidden_parameters Linear_parameters app sd_keys fmap list_fmap fst].
  apply NoDup_cons. split; [|apply NoDup_cons; split; [|apply IH]].
  - rewrite not_elem_of_cons. split.
    + intros [_ [=]]%hidden_key_inj; unfold is_param_name; auto.
    + intros (j & s & Hj & Hs & [? _]%hidden_key_inj)%elem_of_hidden_keys;
        unfold is_param_name; auto. lia.
  - intros (j & s & Hj & Hs & [? _]%hidden_key_inj)%elem_of_hidden_keys;
      unfold is_param_name; auto. lia.
Qed.

Lemma NoDup_state_dict_keys (model : Model) :
  NoDup (sd_keys (state_dict model)).
Proof.
  rewrite sd_keys_state_dict. apply NoDup_app. split; [|split].
  - apply NoDup_hidden_keys.
  - intros key (j & s & _ & _ & ->)%elem_of_hidden_keys.
    rewrite !not_elem_of_cons. repeat split.
    + apply hidden_key_ne_output.
    + apply hidden_key_ne_output.
    + apply not_elem_of_nil.
  - apply NoDup_cons. split; [|apply NoDup_singleton].
    intros [=]%list_elem_of_singleton.
Qed.

Lemma sd_lookup_NoDup (sd : StateDict) (key : string) (t : Tensor) :
  NoDup (sd_keys sd) → (key, t) ∈ sd → sd_lookup key sd = Some t.
Proof.
  unfold sd_keys. induction sd as [|[k t0] sd IH]; intros Hnd Hin.
  - by apply elem_of_nil in Hin.
  - cbn [fmap list_fmap fst] in Hnd. apply NoDup_cons in Hnd as [Hk Hnd].
    cbn [sd_lookup]. apply elem_of_cons in Hin as [[= -> ->] | Hin].
    + by rewrite decide_True.
    + rewrite decide_False; [by apply IH|].
      intros ->. apply Hk. apply (list_elem_of_fmap_2 fst) in Hin. exact Hin.
Qed.

End Unique.

(** X1: the parameter names of any model are pairwise distinct, so every
    entry of its snapshot is the one a lookup by name finds: no parameter
    is shadowed by another. *)
Theorem state_dict_keys_unique (model : Model) :
  NoDup (sd_keys (state_dict model)) ∧
  ∀ key t, (key, t) ∈ state_dict model →
    sd_lookup key (state_dict model) = Some t.
Proof.
  split; [apply NoDup_state_dict_keys|].
  intros key t. apply sd_lookup_NoDup, NoDup_state_dict_keys.
Qed.

(** X2: whatever the snapshot, and whether it raises or not,
    [load_state_dict] leaves the layout of the model as it was: the same
    parameter names in the same order, the same shape for every parameter,
    the same layer widths and the same dropout probability. *)
Theorem load_state_dict_keeps_layout (model : Model) (sd : StateDict) :
  sd_keys (state_dict (load_state_dict model sd).1) = sd_keys (state_dict model) ∧
  sd_shapes (state_dict (load_state_dict model sd).1)
    = sd_shapes (state_dict model) ∧
  architecture (load_state_dict model sd).1 = architecture model ∧
  dropout (load_state_dict model sd).1 = dropout model.
Proof.
  destruct (load_state_dict_transfer model sd) as (Hp & Ha & Hd & _).
  unfold sd_keys, sd_shapes. rewrite Hp, <-!list_fmap_compose.
  repeat split; [|done..].
  apply list_fmap_ext. intros _ [k p] _. cbn. apply transfer_shape.
Qed.

(** X3: after [load_state_dict], raising or not, a parameter looked up by
    name holds the tensor of the snapshot when the snapshot has that key
    with the parameter's shape, and the tensor it held before otherwise. *)
Theorem load_state_dict_params (model : Model) (sd : StateDict)
    (key : string) (param : Tensor) :
  (key, param) ∈ state_dict model →
  sd_lookup key (state_dict (load_state_dict model sd).1)
    = Some (transfer sd key param).
Proof.
  intros Hin. apply sd_lookup_NoDup; [apply NoDup_state_dict_keys|].
  destruct (load_state_dict_transfer model sd) as (-> & _).
  by apply (list_elem_of_fmap_2 (λ kp, (kp.1, transfer sd kp.1 kp.2))) in Hin.
Qed.

Lemma load_state_dict_params_witness :
  let model := fc_model.Network Z.of_nat 3 2 [2] (1 # 2) in
  let sd := state_dict (fc_model.Network (λ _, 7%Z) 3 2 [4] (1 # 2)) in
  sd_lookup "output.bias" (state_dict (load_state_dict model sd).1)
    = Some (transfer sd "output.bias" (bias (output model))).
Proof.
  intros model sd.
  apply (load_state_dict_params model sd "output.bias" (bias (output model))).
  apply list_elem_of_lookup. exists 3. reflexivity.
Defined.

(** ** Loading twice, and loading what does not fit *)

Section Mismatch.

Lemma transfer_idem (sd : StateDict) (key : string) (param : Tensor) :
  transfer sd key (transfer sd key param) = transfer sd key param.
Proof.
  unfold transfer. destruct (sd_lookup key sd) as [t|]; [|done].
  destruct (decide (shape t = shape param)) as [Hs|Hs].
  - by rewrite decide_True.
  - by rewrite decide_False.
Qed.

Lemma param_outcome_transfer (sd : StateDict) (key : string) (param : Tensor) :
  param_outcome sd key (transfer sd key param) = param_outcome sd key param.
Proof. unfold param_outcome. by rewrite transfer_shape. Qed.

Lemma load_param_idem (sd : StateDict) (key : string) (param : Tensor) :
  load_param sd key (load_param sd key param).1 = load_param sd key param.
Proof.
  rewrite !load_param_transfer. cbn [fst].
  by rewrite transfer_idem, param_outcome_transfer.
Qed.

Lemma load_Linear_idem (sd : StateDict) (prefix : string) (l : Linear) :
  load_Linear sd prefix (load_Linear sd prefix l).1 = load_Linear sd prefix l.
Proof.
  unfold load_Linear.
  pose proof (load_param_idem sd (prefix +:+ "weight") (weight l)) as Hw.
  pose proof (load_param_idem sd (prefix +:+ "bias") (bias l)) as Hb.
  destruct (load_param sd (prefix +:+ "weight") (weight l)) as [w ow].
  destruct (load_param sd (prefix +:+ "bias") (bias l)) as [b ob].
  cbn [fst weight bias in_features out_features] in *. by rewrite Hw, Hb.
Qed.

Lemma load_hidden_idem (sd : StateDict) (i : nat) (ls : list Linear) :
  load_hidden sd i (load_hidden sd i ls).1 = load_hidden sd i ls.
Proof.
  revert i. induction ls as [|l ls IH]; intros i; [done|].
  cbn [load_hidden].
  pose proof (load_Linear_idem sd (hidden_prefix i) l) as H1.
  specialize (IH (S i)).
  destruct (load_Linear sd (hidden_prefix i) l) as [l1 o1].
  destruct (load_hidden sd (S i) ls) as [ls1 o2].
  cbn [fst load_hidden] in *. by rewrite H1, IH.
Qed.

Lemma load_hidden_length (sd : StateDict) (i : nat) (ls : list Linear) :
  length (load_hidden sd i ls).1 = length ls.
Proof.
  destruct (load_hidden_transfer sd i ls) as (_ & _ & H).
  apply (f_equal length) in H. by rewrite !length_fmap in H.
Qed.

Lemma sd_lookup_elem (key : string) (sd : StateDict) (t : Tensor) :
  sd_lookup key sd = Some t → (key, t) ∈ sd.
Proof.
  induction sd as [|[k t'] sd IH]; [done|]. cbn [sd_lookup].
  destruct (decide (k = key)) as [->|].
  - intros [= ->]. left.
  - intros H. right. auto.
Qed.

(** When nothing was missing and nothing mismatched, every parameter was
    found in the snapshot with its own shape. *)
Lemma outcomes_all_found (sd : StateDict) (l : StateDict) (key : string)
    (param : Tensor) :
  missing_keys ((λ kp, param_outcome sd kp.1 kp.2) <$> l) = [] →
  size_mismatches ((λ kp, param_outcome sd kp.1 kp.2) <$> l) = [] →
  (key, param) ∈ l →
  ∃ t, sd_lookup key sd = Some t ∧ shape t = shape param.
Proof.
  intros Hm Hs Hin.
  apply (list_elem_of_fmap_2 (λ kp, param_outcome sd kp.1 kp.2)) in Hin.
  cbn [fst snd] in Hin. unfold param_outcome in Hin.
  destruct (sd_lookup key sd) as [t|].
  - destruct (decide (shape t = shape param)) as [E|_]; [by exists t|].
    assert (SizeMismatch key (shape t) (shape param)
            ∈ size_mismatches ((λ kp, param_outcome sd kp.1 kp.2) <$> l)) as H.
    { apply list_elem_of_omap. by eexists. }
    rewrite Hs in H. by apply elem_of_nil in H.
  - assert (key ∈ missing_keys ((λ kp, param_outcome sd kp.1 kp.2) <$> l)) as H.
    { apply list_elem_of_omap. by eexists. }
    rewrite Hm in H. by apply elem_of_nil in H.
Qed.

Lemma hidden_key_in_state_dict (model : Model) (j : nat) :
  hidden_prefix j +:+ "weight" ∈ sd_keys (state_dict model) →
  j < length (hidden_layers model).
Proof.
  rewrite sd_keys_state_dict. intros [H | H]%elem_of_app.
  - apply elem_of_hidden_keys in H as (k & s & Hk & Hs & [-> _]%hidden_key_inj);
      unfold is_param_name; auto. lia.
  - apply elem_of_cons in H as [H | H%list_elem_of_singleton];
      by apply hidden_key_ne_output in H.
Qed.

(** A call that raises nothing has found the source's shapes everywhere. *)
Lemma load_state_dict_Ok_same_shape (S F : Model) :
  (load_state_dict F (state_dict S)).2.2 = Ok () →
  Forall2 same_shape (hidden_layers S) (hidden_layers F) ∧
  same_shape (output S) (output F).
Proof.
  destruct (load_state_dict_transfer F (state_dict S)) as (_ & _ & _ & ->).
  cbn [snd]. set (os := (λ kp, param_outcome (state_dict S) kp.1 kp.2)
                          <$> state_dict F).
  destruct (error_msgs F (state_dict S) os) as [|m msgs] eqn:E; [|done].
  intros _. unfold error_msgs in E.
  apply app_nil in E as [Em [Eu Es]%app_nil].
  destruct (decide (missing_keys os = [])) as [Hm|]; [|done].
  destruct (decide (unexpected_keys F (state_dict S) = [])) as [Hu|]; [|done].
  assert (∀ key param, (key, param) ∈ state_dict F →
    ∃ t, sd_lookup key (state_dict S) = Some t ∧ shape t = shape param) as Hall
    by (intros key param; by apply outcomes_all_found).
  assert (length (hidden_layers S) = length (hidden_layers F)) as Hlen.
  { apply Nat.le_antisymm.
    - destruct (decide (length (hidden_layers S) ≤ length (hidden_layers F)))
        as [|Hn]; [done|]. exfalso.
      destruct (lookup_lt_is_Some_2 (hidden_layers S) (length (hidden_layers F)))
        as [l Hl]; [lia|].
      destruct (state_dict_lookup_hidden S _ _ Hl) as [Hw%sd_lookup_elem _].
      apply (list_elem_of_fmap_2 fst) in Hw. cbn [fst] in Hw.
      assert (hidden_prefix (length (hidden_layers F)) +:+ "weight"
              ∈ unexpected_keys F (state_dict S)) as Hin.
      { apply list_elem_of_filter. split; [|done].
        intros ?%hidden_key_in_state_dict. lia. }
      rewrite Hu in Hin. by apply elem_of_nil in Hin.
    - destruct (decide (length (hidden_layers F) ≤ length (hidden_layers S)))
        as [|Hn]; [done|]. exfalso.
      destruct (lookup_lt_is_Some_2 (hidden_layers F) (length (hidden_layers S)))
        as [l Hl]; [lia|].
      destruct (state_dict_lookup_hidden F _ _ Hl) as [Hw%sd_lookup_elem _].
      destruct (Hall _ _ Hw) as (t & Ht%sd_lookup_elem & _).
      apply (list_elem_of_fmap_2 fst) in Ht. cbn [fst] in Ht.
      apply hidden_key_in_state_dict in Ht. lia. }
  split.
  - apply Forall2_same_length_lookup_2; [done|].
    intros j lS lF HS HF.
    destruct (state_dict_lookup_hidden S _ _ HS) as [HSw HSb].
    destruct (state_dict_lookup_hidden F _ _ HF)
      as [HFw%sd_lookup_elem HFb%sd_lookup_elem].
    destruct (Hall _ _ HFw) as (tw & Hw & Hsw).
    destruct (Hall _ _ HFb) as (tb & Hb & Hsb).
    rewrite HSw in Hw. rewrite HSb in Hb. by simplify_eq.
  - destruct (state_dict_lookup_output S) as [HSw HSb].
    destruct (state_dict_lookup_output F)
      as [HFw%sd_lookup_elem HFb%sd_lookup_elem].
    destruct (Hall _ _ HFw) as (tw & Hw & Hsw).
    destruct (Hall _ _ HFb) as (tb & Hb & Hsb).
    rewrite HSw in Hw. rewrite HSb in Hb. by simplify_eq.
Qed.

Lemma load_state_dict_unfold (model : Model) (sd : StateDict) :
  load_state_dict model sd =
    ({| hidden_layers := (load_hidden sd 0 (hidden_layers model)).1;
        output := (load_Linear sd output_prefix (output model)).1;
        dropout := dropout model |},
     (CopyParam <$> copied ((load_hidden sd 0 (hidden_layers model)).2
                            ++ (load_Linear sd output_prefix (output model)).2),
      match error_msgs model sd
              ((load_hidden sd 0 (hidden_layers model)).2
               ++ (load_Linear sd output_prefix (output model)).2) with
      | [] => Ok ()
      | msgs => Err (RuntimeError msgs)
      end)).
Proof.
  unfold load_state_dict.
  destruct (load_hidden sd 0 (hidden_layers model)) as [hl o1].
  by destruct (load_Linear sd output_prefix (output model)) as [out o2].
Qed.

(** Networks of the factory with the same parameter shapes have the same
    widths. *)
Lemma chain_same_shape_inv (g g' : nat → Z) (pos pos' n n' : nat)
    (hs hs' : list nat) :
  Forall2 same_shape (fc_model.chain g pos n hs) (fc_model.chain g' pos' n' hs') →
  hs = hs' ∧ (hs ≠ [] → n = n').
Proof.
  revert pos pos' n n' hs'. induction hs as [|h hs IH];
    intros pos pos' n n' [|h' hs'] HF; cbn [fc_model.chain] in HF.
  - done.
  - by apply Forall2_nil_cons_inv in HF.
  - by apply Forall2_cons_nil_inv in HF.
  - apply Forall2_cons_1 in HF as [[Hw _] HF]. cbn in Hw.
    injection Hw as -> ->. apply IH in HF as [-> _]. done.
Qed.

End Mismatch.

(** X4: [load_state_dict] is idempotent: loading the same snapshot a second
    time changes nothing in the model the first call left, copies the same
    parameters and ends the same way, with the same error if the first call
    raised. *)
Theorem load_state_dict_idempotent (model : Model) (sd : StateDict) :
  load_state_dict (load_state_dict model sd).1 sd = load_state_dict model sd.
Proof.
  assert (unexpected_keys (load_state_dict model sd).1 sd
          = unexpected_keys model sd) as Hu.
  { unfold unexpected_keys.
    destruct (load_state_dict_transfer model sd) as (Hp & _).
    assert (sd_keys (state_dict (load_state_dict model sd).1)
            = sd_keys (state_dict model)) as ->; [|done].
    unfold sd_keys. rewrite Hp, <-list_fmap_compose. done. }
  rewrite (load_state_dict_unfold model sd) in Hu |- *. cbn [fst] in Hu |- *.
  rewrite load_state_dict_unfold. cbn [hidden_layers output dropout].
  rewrite load_hidden_idem, load_Linear_idem. unfold error_msgs.
  by rewrite Hu.
Qed.

(** X5: whenever the snapshot holds a parameter of the model under its name
    with another shape, [load_state_dict] raises a [RuntimeError] that
    reports the size mismatch for that key with the shape in the snapshot
    and the shape in the model, and the parameter keeps the tensor it had. *)
Theorem load_state_dict_size_mismatch (model : Model) (sd : StateDict)
    (key : string) (param t : Tensor) :
  (key, param) ∈ state_dict model →
  sd_lookup key sd = Some t → shape t ≠ shape param →
  ∃ msgs,
    (load_state_dict model sd).2.2 = Err (RuntimeError msgs) ∧
    SizeMismatch key (shape t) (shape param) ∈ msgs ∧
    sd_lookup key (state_dict (load_state_dict model sd).1) = Some param.
Proof.
  intros Hin Hl Hs.
  destruct (load_state_dict_transfer model sd) as (Hp & _ & _ & ->).
  cbn [snd]. set (os := (λ kp, param_outcome sd kp.1 kp.2) <$> state_dict model).
  assert (SizeMismatch key (shape t) (shape param) ∈ error_msgs model sd os)
    as Hmsg.
  { unfold error_msgs. apply elem_of_app. right. apply elem_of_app. right.
    apply list_elem_of_omap. exists (Mismatch key (shape t) (shape param)).
    split; [|done].
    apply (list_elem_of_fmap_2 (λ kp, param_outcome sd kp.1 kp.2)) in Hin.
    cbn [fst snd] in Hin. unfold param_outcome in Hin.
    by rewrite Hl, decide_False in Hin. }
  destruct (error_msgs model sd os) as [|m msgs].
  { by apply elem_of_nil in Hmsg. }
  exists (m :: msgs). repeat split; [done|].
  apply sd_lookup_NoDup; [apply NoDup_state_dict_keys|]. rewrite Hp.
  apply (list_elem_of_fmap_2 (λ kp, (kp.1, transfer sd kp.1 kp.2))) in Hin.
  cbn [fst snd] in Hin. unfold transfer in Hin.
  by rewrite Hl, decide_False in Hin.
Qed.

Lemma load_state_dict_size_mismatch_witness :
  let model := fc_model.Network Z.of_nat 3 2 [2] (1 # 2) in
  let source := fc_model.Network (λ _, 7%Z) 3 2 [4] (1 # 2) in
  ∃ msgs,
    (load_state_dict model (state_dict source)).2.2 = Err (RuntimeError msgs) ∧
    SizeMismatch "output.weight" [2; 4] [2; 2] ∈ msgs ∧
    sd_lookup "output.weight"
      (state_dict (load_state_dict model (state_dict source)).1)
      = Some (weight (output model)).
Proof.
  intros model source.
  apply (load_state_dict_size_mismatch model (state_dict source)
           "output.weight" (weight (output model)) (weight (output source))).
  - apply list_elem_of_lookup. exists 2. reflexivity.
  - reflexivity.
  - vm_compute. discriminate.
Defined.

(** X6: loading the snapshot of one model into another raises nothing
    exactly when the two have the same number of hidden layers and every
    parameter has the same shape in both; the values, the recorded layer
    widths and the dropout probability play no part. *)
Theorem load_state_dict_succeeds_iff (S F : Model) :
  (load_state_dict F (state_dict S)).2.2 = Ok () ↔
  Forall2 same_shape (hidden_layers S) (hidden_layers F) ∧
  same_shape (output S) (output F).
Proof.
  split.
  - apply load_state_dict_Ok_same_shape.
  - intros [Hh Ho]. by rewrite (load_state_dict_restored S F Hh Ho).
Qed.

(** X7: what the notebook says before cell 10, for the networks of the
    factory: loading the snapshot of a network into a freshly built one
    works only if the architecture is exactly the same.  The call raises
    nothing exactly when input width, output width and hidden widths all
    agree. *)
Theorem load_state_dict_same_architecture (g g' : nat → Z)
    (i o i' o' : nat) (hs hs' : list nat) (p p' : Q) :
  (load_state_dict (fc_model.Network g' i' o' hs' p')
     (state_dict (fc_model.Network g i o hs p))).2.2 = Ok () ↔
  i = i' ∧ o = o' ∧ hs = hs'.
Proof.
  split.
  - intros [Hh [Ho _]]%load_state_dict_Ok_same_shape.
    cbn [fc_model.Network hidden_layers output nn_Linear weight fresh shape]
      in Hh, Ho.
    apply chain_same_shape_inv in Hh as [<- Hn]. injection Ho as <- Hl.
    destruct hs as [|h hs]; [by cbn in Hl|].
    by rewrite Hn.
  - intros (<- & <- & <-).
    rewrite (load_state_dict_restored (fc_model.Network g i o hs p)
               (fc_model.Network g' i o hs p')); [done| |done].
    apply chain_same_shape.
Qed.

(** ** The cells around the checkpoint *)

Section Cells.

Lemma restored_self (ls : list Linear) : zip_with restored ls ls = ls.
Proof.
  induction ls as [|[n_in n_out w b] ls IH]; [done|].
  cbn [zip_with]. by rewrite IH.
Qed.

Lemma same_shape_refl (ls : list Linear) : Forall2 same_shape ls ls.
Proof. apply Forall_Forall2_diag, Forall_forall. by intros l _. Qed.

(** Cell 9 on the model the snapshot was taken from. *)
Lemma load_state_dict_own (model : Model) :
  load_state_dict model (state_dict model)
    = (model, (CopyParam <$> sd_keys (state_dict model), Ok ())).
Proof.
  rewrite (load_state_dict_restored model model);
    [|apply same_shape_refl|done].
  rewrite restored_self. by destruct model as [hl [n_in n_out w b] p].
Qed.

Lemma state_dict_lacks_input_size (model : Model) :
  sd_lookup "input_size" (state_dict model) = None.
Proof.
  apply sd_lookup_None_keys. rewrite sd_keys_state_dict.
  intros [H | H]%elem_of_app.
  - apply elem_of_hidden_keys in H as (j & s & _ & _ & H).
    unfold hidden_prefix in H. rewrite !string_app_assoc in H. discriminate H.
  - apply elem_of_cons in H as [H | H%list_elem_of_singleton]; discriminate H.
Qed.

Context {artifact : Type}.
Variable encode : PyVal → artifact.
Variable decode : artifact → option PyVal.
Hypothesis decode_encode : ∀ obj, decode (encode obj) = Some obj.

(** The artifact of cell 11 read back by [load_checkpoint], for any model
    that has the parameter shapes of the network the factory builds from
    the fields the cell writes. *)
Lemma load_checkpoint_saved_any (g' : nat → Z) (m : Model)
    (fs : gmap string artifact) :
  let hs := out_features <$> hidden_layers m in
  let F := fc_model.Network g' 784 10 hs fc_model.default_drop_p in
  Forall2 same_shape (hidden_layers m) (hidden_layers F) →
  same_shape (output m) (output F) →
  load_checkpoint decode g' (save_checkpoint encode m fs) "checkpoint.pth" =
    (CallNetwork (PyInt 784) (PyInt 10) (PyIntList (Z.of_nat <$> hs))
       :: (CopyParam <$> sd_keys (state_dict m)),
     Ok {| hidden_layers := zip_with restored (hidden_layers m) (hidden_layers F);
           output := restored (output m) (output F);
           dropout := fc_model.default_drop_p |}).
Proof.
  intros hs F Hh Ho. unfold load_checkpoint, save_checkpoint.
  rewrite (torch_load_save encode decode decode_encode), bind_lift_Ok.
  destruct (checkpoint_lookup m) as (Hi & Hout & Hhl & Hs).
  cbn [getitem]. rewrite Hi, Hout, Hhl, Hs, !bind_lift_Ok.
  rewrite (list_fmap_compose out_features Z.of_nat). fold hs.
  unfold call_Network.
  change (as_size (PyInt 784)) with (as_size (PyInt (Z.of_nat 784))).
  change (as_size (PyInt 10)) with (as_size (PyInt (Z.of_nat 10))).
  rewrite !as_size_of_nat, as_sizes_of_nat, bind_Ok.
  fold F. rewrite bind_lift_Ok. unfold call_load_state_dict.
  rewrite (load_state_dict_restored m F Hh Ho), bind_Ok.
  cbn [mret exec_ret fst snd app]. by rewrite app_nil_r.
Qed.

End Cells.



(** X9: [load_checkpoint] on the file that cell 7 wrote, a bare snapshot
    under the same path, raises [KeyError] for [input_size] before the
    factory is called: the snapshot of a network has no such key, whatever
    the network. *)
Theorem load_checkpoint_on_state_dict_file {artifact : Type}
    (encode : PyVal → artifact) (decode : artifact → option PyVal)
    (g : nat → Z) (model : Model) (fs : gmap string artifact) :
  (∀ obj, decode (encode obj) = Some obj) →
  load_checkpoint decode g (save_state_dict encode model fs) "checkpoint.pth"
    = ([], Err (KeyError "input_size")).
Proof.
  intros Hcodec. unfold load_checkpoint, save_state_dict.
  rewrite (torch_load_save encode decode Hcodec), bind_lift_Ok.
  cbn [getitem]. by rewrite state_dict_lacks_input_size.
Qed.

Lemma load_checkpoint_on_state_dict_file_witness :
  load_checkpoint Some (λ _, 0%Z)
    (save_state_dict id (fc_model.Network Z.of_nat 784 10 [3] (1 # 2)) ∅)
    "checkpoint.pth"
  = ([], Err (KeyError "input_size")).
Proof.
  apply (load_checkpoint_on_state_dict_file id Some). reflexivity.
Defined.

(** X10: when the mapping read from the file has the three descriptor
    fields and the factory accepts them but the mapping lacks [state_dict],
    [load_checkpoint] raises [KeyError] for [state_dict] only after the
    factory was called: the log holds that call and no parameter copy. *)
Theorem load_checkpoint_missing_state_dict {artifact : Type}
    (decode : artifact → option PyVal) (g : nat → Z)
    (fs : gmap string artifact) (filepath : string)
    (checkpoint v1 v2 v3 : PyVal) (F : Model) :
  torch_load decode filepath fs = Ok checkpoint →
  getitem checkpoint "input_size" = Ok v1 →
  getitem checkpoint "output_size" = Ok v2 →
  getitem checkpoint "hidden_layers" = Ok v3 →
  (call_Network g v1 v2 v3).2 = Ok F →
  lacks checkpoint "state_dict" →
  load_checkpoint decode g fs filepath
    = ([CallNetwork v1 v2 v3], Err (KeyError "state_dict")).
Proof.
  intros Hl H1 H2 H3 HF Hs. unfold load_checkpoint.
  rewrite Hl, bind_lift_Ok, H1, bind_lift_Ok, H2, bind_lift_Ok, H3, bind_lift_Ok.
  unfold call_Network in *. cbn [snd] in HF. rewrite HF, bind_Ok.
  unfold lacks in Hs. by rewrite Hs.
Qed.

Lemma load_checkpoint_missing_state_dict_witness :
  let d : gmap string PyVal :=
    {[ "input_size" := PyInt 3; "output_size" := PyInt 2;
       "hidden_layers" := PyIntList [2%Z] ]} in
  load_checkpoint Some (λ _, 0%Z) {[ "bare.pth" := PyDict d ]} "bare.pth"
    = ([CallNetwork (PyInt 3) (PyInt 2) (PyIntList [2%Z])],
       Err (KeyError "state_dict")).
Proof.
  intros d.
  apply (load_checkpoint_missing_state_dict Some (λ _, 0%Z)
           {[ "bare.pth" := PyDict d ]} "bare.pth" (PyDict d)
           (PyInt 3) (PyInt 2) (PyIntList [2%Z])
           (fc_model.Network (λ _, 0%Z) 3 2 [2] fc_model.default_drop_p));
    reflexivity.
Defined.

Lemma sd_keys_network (model : Model) :
  sd_keys (state_dict model) = network_keys (length (hidden_layers model)).
Proof.
  rewrite sd_keys_state_dict, sd_keys_hidden. unfold network_keys. f_equal.
  apply list_bind_ext; [|done]. intros k. unfold hidden_prefix.
  by rewrite !string_app_assoc.
Qed.

(** X11: the layout of any model that [load_checkpoint] returns is the one
    the three descriptor fields of the file give, whatever the snapshot
    holds: its layer widths are those of the network the factory builds
    from the fields, its parameter names are those of a network with that
    many hidden layers, and its dropout probability is the default 0.5. *)
Theorem load_checkpoint_layout {artifact : Type}
    (decode : artifact → option PyVal) (g : nat → Z)
    (fs : gmap string artifact) (filepath : string)
    (log : list event) (M : Model) :
  load_checkpoint decode g fs filepath = (log, Ok M) →
  ∃ checkpoint v1 v2 v3 i o hs,
    torch_load decode filepath fs = Ok checkpoint ∧
    getitem checkpoint "input_size" = Ok v1 ∧ as_size v1 = Some i ∧
    getitem checkpoint "output_size" = Ok v2 ∧ as_size v2 = Some o ∧
    getitem checkpoint "hidden_layers" = Ok v3 ∧ as_sizes v3 = Some hs ∧
    architecture M
      = architecture (fc_model.Network g i o hs fc_model.default_drop_p) ∧
    sd_keys (state_dict M) = network_keys (length hs) ∧
    dropout M = fc_model.default_drop_p.
Proof.
  unfold load_checkpoint.
  destruct (torch_load decode filepath fs) as [c|e]; [|done].
  rewrite bind_lift_Ok.
  destruct (getitem c "input_size") as [v1|e] eqn:G1; [|done].
  rewrite bind_lift_Ok.
  destruct (getitem c "output_size") as [v2|e] eqn:G2; [|done].
  rewrite bind_lift_Ok.
  destruct (getitem c "hidden_layers") as [v3|e] eqn:G3; [|done].
  rewrite bind_lift_Ok.
  unfold call_Network.
  destruct (as_size v1) as [i|] eqn:E1; [|done].
  destruct (as_size v2) as [o|] eqn:E2; [|done].
  destruct (as_sizes v3) as [hs|] eqn:E3; [|done].
  rewrite bind_Ok.
  destruct (getitem c "state_dict") as [vs|e]; [|done]. rewrite bind_lift_Ok.
  unfold call_load_state_dict. destruct vs as [| | | | |sd|]; try done.
  set (F := fc_model.Network g i o hs fc_model.default_drop_p).
  destruct (load_state_dict_transfer F sd) as (Hp & Ha & Hd & _).
  destruct (load_state_dict F sd) as [M' [copies [[]|e]]]; [|done].
  rewrite bind_Ok. cbn [mret exec_ret fst snd app]. intros [= _ <-].
  exists c, v1, v2, v3, i, o, hs.
  cbn [fst] in Hp, Ha, Hd. do 7 (split; [done|]). split; [done|]. split; [|done].
  unfold sd_keys. rewrite Hp, <-list_fmap_compose.
  change (sd_keys (state_dict F) = network_keys (length hs)).
  rewrite sd_keys_network. unfold F. cbn [fc_model.Network hidden_layers].
  by rewrite chain_length.
Qed.

Lemma load_checkpoint_layout_witness :
  let stale : gmap string PyVal :=
    {[ "input_size" := PyInt 3; "output_size" := PyInt 2;
       "hidden_layers" := PyIntList [2%Z];
       "state_dict" :=
         PyStateDict (state_dict (fc_model.Network Z.of_nat 3 2 [2] (1 # 5))) ]} in
  let fs : gmap string PyVal := {[ "own.pth" := PyDict stale ]} in
  let M := fc_model.Network Z.of_nat 3 2 [2] (1 # 2) in
  ∃ checkpoint v1 v2 v3 i o hs,
    torch_load Some "own.pth" fs = Ok checkpoint ∧
    getitem checkpoint "input_size" = Ok v1 ∧ as_size v1 = Some i ∧
    getitem checkpoint "output_size" = Ok v2 ∧ as_size v2 = Some o ∧
    getitem checkpoint "hidden_layers" = Ok v3 ∧ as_sizes v3 = Some hs ∧
    architecture M
      = architecture (fc_model.Network (λ _, 0%Z) i o hs fc_model.default_drop_p) ∧
    sd_keys (state_dict M) = network_keys (length hs) ∧
    dropout M = fc_model.default_drop_p.
Proof.
  intros stale fs M.
  apply (load_checkpoint_layout Some (λ _, 0%Z) fs "own.pth"
           (CallNetwork (PyInt 3) (PyInt 2) (PyIntList [2%Z])
              :: (CopyParam <$> network_keys 1))).
  vm_compute. reflexivity.
Defined.

Lemma architecture_restored (m F : Model) (p : Q) :
  length (hidden_layers m) = length (hidden_layers F) →
  architecture {| hidden_layers := zip_with restored (hidden_layers m) (hidden_layers F);
                  output := restored (output m) (output F);
                  dropout := p |} = architecture F.
Proof.
  intros Hlen. unfold architecture.
  cbn [hidden_layers output restored in_features out_features].
  by rewrite widths_restored.
Qed.

(** X12: the cells of the notebook in the order they were run, for any
    parameter values after training ([g1]) and any random draws of the two
    later factory calls ([g2], [g3]).  Cell 9 matches all keys and leaves
    the trained model as it is.  Cell 10 rebinds [model] to a network of
    hidden widths [400, 200, 100]; its [load_state_dict] raises the seven
    size mismatches after it has copied the trained [output.bias] into that
    network.  Cell 11 therefore saves that network, not the trained one,
    and the model cell 13 loads has the widths cell 13 prints
    (784, 400, 200, 100, 10) and the parameters cell 10 left. *)
Theorem notebook_run {artifact : Type}
    (encode : PyVal → artifact) (decode : artifact → option PyVal)
    (g1 g2 g3 : nat → Z) (fs : gmap string artifact) :
  (∀ obj, decode (encode obj) = Some obj) →
  let trained :=
    fc_model.Network g1 784 10 [512; 256; 128] fc_model.default_drop_p in
  let built :=
    fc_model.Network g2 784 10 [400; 200; 100] fc_model.default_drop_p in
  let left :=
    {| hidden_layers := hidden_layers built;
       output := {| in_features := 100; out_features := 10;
                    weight := weight (output built);
                    bias := bias (output trained) |};
       dropout := fc_model.default_drop_p |} in
  let fs7 := save_state_dict encode trained fs in
  ∃ sd log M,
    torch_load decode "checkpoint.pth" fs7 = Ok (PyStateDict sd) ∧
    load_state_dict trained sd
      = (trained, (CopyParam <$> network_keys 3, Ok ())) ∧
    load_state_dict built sd
      = (left,
         ([CopyParam "output.bias"],
          Err (RuntimeError
            [SizeMismatch "hidden_layers.0.weight" [512; 784] [400; 784];
             SizeMismatch "hidden_layers.0.bias" [512] [400];
             SizeMismatch "hidden_layers.1.weight" [256; 512] [200; 400];
             SizeMismatch "hidden_layers.1.bias" [256] [200];
             SizeMismatch "hidden_layers.2.weight" [128; 256] [100; 200];
             SizeMismatch "hidden_layers.2.bias" [128] [100];
             SizeMismatch "output.weight" [10; 128] [10; 100]]))) ∧
    load_checkpoint decode g3 (save_checkpoint encode left fs7) "checkpoint.pth"
      = (log, Ok M) ∧
    architecture M = architecture built ∧
    state_dict M = state_dict left.
Proof.
  intros Hcodec trained built left fs7.
  set (F := fc_model.Network g3 784 10 [400; 200; 100] fc_model.default_drop_p).
  assert (length (hidden_layers left) = length (hidden_layers F)) as Hlen.
  { unfold left, built, F. cbn [fc_model.Network hidden_layers].
    by rewrite !chain_length. }
  assert (out_features <$> hidden_layers left = [400; 200; 100]) as Hhs
    by apply chain_out_features.
  pose proof (load_checkpoint_saved_any encode decode Hcodec g3 left fs7) as H.
  cbv zeta in H. rewrite Hhs in H. fold F in H.
  exists (state_dict trained).
  eexists _, {| hidden_layers := zip_with restored (hidden_layers left) (hidden_layers F);
                output := restored (output left) (output F);
                dropout := fc_model.default_drop_p |}.
  split; [by apply torch_load_save|]. split.
  { rewrite load_state_dict_own. by rewrite sd_keys_network. }
  split; [reflexivity|]. split.
  { apply H.
    - apply chain_same_shape.
    - unfold same_shape, left, built, F.
      cbn [output weight bias shape fresh nn_Linear fc_model.Network].
      split; reflexivity. }
  split.
  - rewrite (architecture_restored left F _ Hlen). symmetry.
    apply architecture_Network.
  - by apply (state_dict_restored left F).
Qed.

Lemma notebook_run_witness :
  let trained :=
    fc_model.Network Z.of_nat 784 10 [512; 256; 128] fc_model.default_drop_p in
  let built :=
    fc_model.Network (λ _, 1%Z) 784 10 [400; 200; 100] fc_model.default_drop_p in
  let left :=
    {| hidden_layers := hidden_layers built;
       output := {| in_features := 100; out_features := 10;
                    weight := weight (output built);
                    bias := bias (output trained) |};
       dropout := fc_model.default_drop_p |} in
  let fs7 : gmap string PyVal := save_state_dict id trained ∅ in
  ∃ sd log M,
    torch_load Some "checkpoint.pth" fs7 = Ok (PyStateDict sd) ∧
    load_state_dict trained sd
      = (trained, (CopyParam <$> network_keys 3, Ok ())) ∧
    load_state_dict built sd
      = (left,
         ([CopyParam "output.bias"],
          Err (RuntimeError
            [SizeMismatch "hidden_layers.0.weight" [512; 784] [400; 784];
             SizeMismatch "hidden_layers.0.bias" [512] [400];
             SizeMismatch "hidden_layers.1.weight" [256; 512] [200; 400];
             SizeMismatch "hidden_layers.1.bias" [256] [200];
             SizeMismatch "hidden_layers.2.weight" [128; 256] [100; 200];
             SizeMismatch "hidden_layers.2.bias" [128] [100];
             SizeMismatch "output.weight" [10; 128] [10; 100]]))) ∧
    load_checkpoint Some (λ _, 2%Z) (save_checkpoint id left fs7) "checkpoint.pth"
      = (log, Ok M) ∧
    architecture M = architecture built ∧
    state_dict M = state_dict left.
Proof.
  apply (notebook_run id Some Z.of_nat (λ _, 1%Z) (λ _, 2%Z) ∅). reflexivity.
Defined.
